(** * NewsieAI: the pay-per-request flow of the news agents

    A shallow embedding of the payment path of the repository:
    - [agents/retriv.py]: [NewsRetrievalAgent.run],
      [_handle_payment_required], [cleanup] and [retriv_run_agent];
    - [main.py]: [test_accountant_agent], the only place where the 402
      body is decoded, the payment is awaited and the content redeemed;
    - [database.py]: [save_user_profile] and [get_user_profile] over the
      [user_profiles] table.

    The LLM, the MCP client, the HTTP content server and the accountant
    service ([agents/accountant.py]) are collaborators outside these files:
    they appear as oracles of a [world] record, every call to them is
    logged in a trace of [event]s, and each may answer or raise. *)

From Stdlib Require Import ZArith NArith QArith String Ascii List Lia ZifyBool.
From stdpp Require Import gmap strings list.

Open Scope N_scope.

(** ** Python strings

    A [str] is a sequence of Unicode code points. *)

Module Py.

Abbreviation str := (list N).

(** The code points of an ASCII literal of the source. *)
Definition u (s : string) : str :=
  map N_of_ascii (list_ascii_of_string s).

Definition LF : N := 10.

(** [str.isspace] on one code point (CPython's [Py_UNICODE_ISSPACE]). *)
Definition isspace (c : N) : bool :=
  ((9 <=? c) && (c <=? 13)) || ((28 <=? c) && (c <=? 32))
  || (c =? 133) || (c =? 160) || (c =? 5760)
  || ((8192 <=? c) && (c <=? 8202))
  || (c =? 8232) || (c =? 8233) || (c =? 8239) || (c =? 8287) || (c =? 12288).

Fixpoint lstrip (s : str) : str :=
  match s with
  | c :: s' => if isspace c then lstrip s' else s
  | [] => []
  end.

Definition rstrip (s : str) : str := rev (lstrip (rev s)).

(** [s.strip()] *)
Definition strip (s : str) : str := rstrip (lstrip s).

(** Truth value of a string: non-empty. *)
Definition truthy (s : str) : bool :=
  match s with [] => false | _ :: _ => true end.

(** [s.startswith(p)] *)
Fixpoint startswith (p s : str) : bool :=
  match p, s with
  | [], _ => true
  | a :: p', b :: s' => (a =? b) && startswith p' s'
  | _ :: _, [] => false
  end.

(** [needle in hay] *)
Fixpoint contains (needle hay : str) : bool :=
  startswith needle hay ||
  match hay with
  | [] => false
  | _ :: hay' => contains needle hay'
  end.

(** A Unicode scalar value: a code point that is not a surrogate. Text
    that can be encoded in UTF-8 is made of these. *)
Definition is_scalar (c : N) : bool :=
  (c <? 55296) || ((57343 <? c) && (c <=? 1114111)).

(** Values held by the dictionaries of the program: [None], a number,
    a string, a list of strings. *)
Inductive pyval :=
| PNone
| PNum (q : Q)
| PStr (s : str)
| PList (l : list str).

(** What is handed to the accountant as payment data: a plain value
    (the agent's text) or a decoded JSON object. *)
Inductive pyobj :=
| PVal (v : pyval)
| PDict (d : gmap string pyval).

(** Exceptions, by class. *)
Inductive exn :=
| ConnectionError
| JSONDecodeError
| AttributeError
| OtherError (msg : string).

Inductive result (A : Type) :=
| Ok (a : A)
| Raise (e : exn).
Arguments Ok {A} a.
Arguments Raise {A} e.

(** [if not d] for an optional dictionary: [None] and [{}] are false. *)
Definition dict_truthy (d : option (gmap string pyval)) : bool :=
  match d with
  | None => false
  | Some m => negb (bool_decide (dom m = ∅))
  end.

End Py.
Import Py.

(** ** Effects

    Calls that leave the process, in the order they are made. *)

Inductive event :=
| EvChatOpenAI
| EvGetTools
| EvInvoke (user_input : str)
| EvAccountant (payment : pyobj) (profile : gmap string pyval)
| EvDisconnect
| EvStartMCP (script : string)
| EvTerminate
| EvGet (url : str) (headers : list (string * str))
| EvSleep (seconds : Z).

(** A computation over a state [S]: the events it emits, the state it
    leaves, and its value or the exception it raises. *)
Definition prog (S A : Type) : Type := S -> list event * S * result A.

Definition ret {S A} (a : A) : prog S A := fun s => ([], s, Ok a).

Definition raise {S A} (e : exn) : prog S A := fun s => ([], s, Raise e).

Definition bind {S A B} (m : prog S A) (k : A -> prog S B) : prog S B :=
  fun s =>
    match m s with
    | (t, s1, Ok a) => let '(t', s2, r) := k a s1 in (t ++ t', s2, r)
    | (t, s1, Raise e) => (t, s1, Raise e)
    end.

Notation "'let*' x ':=' m 'in' k" := (bind m (fun x => k))
  (at level 10, x name, m at level 100, k at level 200, only parsing).
Notation "m '>>' k" := (bind m (fun _ => k))
  (at level 100, k at level 200, right associativity, only parsing).

(** A call to a collaborator: log it, then answer as the oracle does. *)
Definition call {S A} (e : event) (r : result A) : prog S A :=
  fun s => ([e], s, r).

(** The outcome of a computation inside the process: nothing is logged. *)
Definition call_pure {S A} (r : result A) : prog S A :=
  fun s => ([], s, r).

Definition get {S} : prog S S := fun s => ([], s, Ok s).
Definition put {S} (s : S) : prog S unit := fun _ => ([], s, Ok tt).

(** [try: m finally: f]. An exception of [f] replaces the outcome of [m]. *)
Definition try_finally {S A} (m : prog S A) (f : prog S unit) : prog S A :=
  fun s =>
    let '(t, s1, r) := m s in
    let '(t', s2, r') := f s1 in
    (t ++ t', s2, match r' with Ok _ => r | Raise e => Raise e end).

(** [try: m except Exception: pass] *)
Definition try_pass {S} (m : prog S unit) : prog S unit :=
  fun s => let '(t, s1, _) := m s in (t, s1, Ok tt).

Definition trace_of {S A} (x : list event * S * result A) : list event := x.1.1.
Definition result_of {S A} (x : list event * S * result A) : result A := x.2.

(** ** The collaborators *)

(** What the program reads of a [requests.Response]: [status_code],
    [text] and the outcome of [json()]. *)
Record response := {
  status_code : Z;
  text : str;
  json : result pyobj;
}.

(** One answer of the content server to a GET, given the URL and the
    headers of the request. *)
Definition handler : Type := str -> list (string * str) -> result response.

(** - [chat_openai]: building the chat model in [__init__];
    - [get_tools]: [mcp_client.get_tools()];
    - [ainvoke]: the agent graph on a user input, as the content of the
      last message of the state it returns;
    - [run_accountant_service]: [agents/accountant.py], on payment data
      and a profile;
    - [disconnect]: [mcp_client.disconnect()];
    - [ensure_mcp_server_running]: whether the call started a process;
    - [content_server]: the answers of the content server to the GETs
      of one run, in order. *)
Record world := {
  chat_openai : result unit;
  get_tools : result unit;
  ainvoke : str -> result str;
  run_accountant_service : pyobj -> gmap string pyval -> result str;
  disconnect : result unit;
  ensure_mcp_server_running : string -> result bool;
  content_server : list handler;
}.

(** ** agents/retriv.py *)

Module Retriv.

(** The fields of a [NewsRetrievalAgent] that change: whether
    [mcp_client] and [agent_runnable] are set. *)
Record agent := {
  mcp_client : bool;
  agent_runnable : bool;
}.

Definition prog := (prog agent).

(** [__init__]: builds the chat model, leaves both fields [None]. *)
Definition init (w : world) : prog unit :=
  call EvChatOpenAI (chat_openai w) >>
  put {| mcp_client := false; agent_runnable := false |}.

Definition setup_mcp_client : prog unit :=
  let* a := get in
  put {| mcp_client := true; agent_runnable := agent_runnable a |}.

Definition create_news_agent (w : world) : prog unit :=
  let* a := get in
  (if mcp_client a then ret tt else setup_mcp_client) >>
  call EvGetTools (get_tools w) >>
  let* a := get in
  put {| mcp_client := mcp_client a; agent_runnable := true |}.

Definition default_profile : gmap string pyval :=
  <["user_id" := PStr (u "default_guest")]>
  (<["tier" := PStr (u "standard")]>
  (<["custom_budget_limit" := PNum (1 # 10)]>
  (<["preference" := PStr (u "user has a neutral preference for news content")]>
   ∅))).

Definition _handle_payment_required (w : world) (payment_info : str)
    (user_profile : option (gmap string pyval)) : prog str :=
  let user_profile :=
    if dict_truthy user_profile then default default_profile user_profile
    else default_profile in
  call (EvAccountant (PVal (PStr payment_info)) user_profile)
       (run_accountant_service w (PVal (PStr payment_info)) user_profile).

Definition user_input (context : str) : str :=
  u "Based on the following context, search for related news articles:"
  ++ [LF; LF] ++ u "                        Context: " ++ context
  ++ [LF; LF]
  ++ u "                        Please search for relevant news and provide a summary.".

(** [run]: the [user_profile] argument is accepted and not used; the
    payment handler is called with its own default, [None]. *)
Definition run (w : world) (context : str)
    (user_profile : option (gmap string pyval)) : prog str :=
  let* a := get in
  (if agent_runnable a then ret tt else create_news_agent w) >>
  let* agent_response := call (EvInvoke (user_input context))
                               (ainvoke w (user_input context)) in
  let payment_info := strip agent_response in
  if truthy payment_info
  then _handle_payment_required w payment_info None
  else ret agent_response.

Definition cleanup (w : world) : prog unit :=
  let* a := get in
  if mcp_client a
  then try_pass (call EvDisconnect (disconnect w))
  else ret tt.

(** The object does not exist before [__init__] returns: a failure
    there is raised before the [try] is entered. *)
Definition retriv_run_agent (w : world) (context : str)
    (user_profile : option (gmap string pyval))
  : list event * result str :=
  let '(t, _, r) :=
    (init w >>
     try_finally (run w context user_profile) (cleanup w))
      {| mcp_client := false; agent_runnable := false |} in
  (t, r).

End Retriv.

(** ** main.py *)

Module Main.

(** The state is what the content server will answer to the GETs still
    to come, in order. *)
Definition prog := (prog (list handler)).

(** [requests.get(url, headers=headers)]: a server that answers no more
    cannot be reached. *)
Definition requests_get (url : str) (headers : list (string * str))
  : prog response :=
  fun srv =>
    match srv with
    | h :: srv' => ([EvGet url headers], srv', h url headers)
    | [] => ([EvGet url headers], [], Raise ConnectionError)
    end.

Definition sleep (seconds : Z) : prog unit := call (EvSleep seconds) (Ok tt).

(** [[A-Za-z0-9]] *)
Definition alnum (c : N) : bool :=
  ((48 <=? c) && (c <=? 57)) || ((65 <=? c) && (c <=? 90))
  || ((97 <=? c) && (c <=? 122)).

Fixpoint take_alnum (s : str) : str :=
  match s with
  | c :: s' => if alnum c then c :: take_alnum s' else []
  | [] => []
  end.

Definition PAYMENT_SUCCESSFUL : str := u "PAYMENT_SUCCESSFUL".

(** The pattern [PAYMENT_SUCCESSFUL:\s*([A-Za-z0-9]+)] anchored at the
    start of [s]; the value is group 1. White space and [[A-Za-z0-9]]
    are disjoint, so the greedy [\s*] never has to give back. *)
Definition match_here (s : str) : option str :=
  if startswith (PAYMENT_SUCCESSFUL ++ u ":") s then
    let h := take_alnum (lstrip (drop (length (PAYMENT_SUCCESSFUL ++ u ":")) s)) in
    if truthy h then Some h else None
  else None.

(** [re.search(pattern, s)]: the leftmost position where it matches. *)
Fixpoint re_search (s : str) : option str :=
  match match_here s with
  | Some h => Some h
  | None =>
      match s with
      | [] => None
      | _ :: s' => re_search s'
      end
  end.

Definition vip_profile : gmap string pyval :=
  <["user_id" := PStr (u "main_tester_01")]>
  (<["tier" := PStr (u "VIP_PLATINUM")]>
  (<["custom_budget_limit" := PNum (1 # 10)]>
  (<["preference" := PStr (u "the user is very interested in crypto market")]>
   ∅))).

Definition server_url : str := u "http://localhost:8000/premium-content".

(** The function returns [None]; what it tells is the last thing it
    prints. *)
Inductive report :=
| ConnectionFailed
| ContentRetrieved (content : pyobj)
| VerificationFailed (body : str)
| NoHashFound
| NotExecuted
| ReturnedOK
| UnexpectedStatus (code : Z).

(** Lines 192-210: what is done with the answer of the accountant. *)
Definition redeem_and_report (agent_res : str) : prog report :=
  if contains PAYMENT_SUCCESSFUL agent_res then
    match re_search agent_res with
    | Some group1 =>
        let tx_hash := strip group1 in
        sleep 10 >>
        let* final_resp :=
          requests_get server_url [("Authorization"%string, u "Bearer " ++ tx_hash)] in
        if (status_code final_resp =? 200)%Z
        then let* content := call_pure (json final_resp) in
             ret (ContentRetrieved content)
        else ret (VerificationFailed (text final_resp))
    | None => ret NoHashFound
    end
  else ret NotExecuted.

(** [try: m except requests.exceptions.ConnectionError: ...]: [None]
    when that exception was caught, any other one goes on. *)
Definition except_connection_error {A} (m : prog A) : prog (option A) :=
  fun srv =>
    match m srv with
    | (t, srv1, Ok a) => (t, srv1, Ok (Some a))
    | (t, srv1, Raise ConnectionError) => (t, srv1, Ok None)
    | (t, srv1, Raise e) => (t, srv1, Raise e)
    end.

(** Lines 168-215: the body of the outer [try]. *)
Definition body (w : world) : prog report :=
  let* reached := except_connection_error (requests_get server_url []) in
  match reached with
  | None => ret ConnectionFailed
  | Some resp =>
      if (status_code resp =? 402)%Z then
        let* bill_data := call_pure (json resp) in
        let payload := bill_data in
        let* agent_res :=
          call (EvAccountant payload vip_profile)
               (run_accountant_service w payload vip_profile) in
        redeem_and_report agent_res
      else if (status_code resp =? 200)%Z then ret ReturnedOK
      else ret (UnexpectedStatus (status_code resp))
  end.

Definition test_accountant_agent (w : world) : list event * result report :=
  let '(t, _, r) :=
    (let* mcp_process :=
       call (EvStartMCP "tool_pay.py") (ensure_mcp_server_running w "tool_pay.py") in
     try_finally (body w)
       (if mcp_process : bool then call EvTerminate (Ok tt) else ret tt))
      (content_server w) in
  (t, r).

End Main.

(** ** The [json] module, on the values the profile table holds

    [json.dumps] with its defaults ([ensure_ascii=True], separators
    [", "]) and [json.loads] (the C scanner, strict), restricted to
    [None], strings and lists of strings. *)

Module Json.

Inductive field :=
| FNone
| FStr (s : str)
| FList (l : list str).

Definition QUOTE : N := 34.
Definition BACKSLASH : N := 92.

Definition hexdigit (d : N) : N := if d <? 10 then 48 + d else 87 + d.

(** ['{0:04x}'.format(n)], for [n < 0x10000]. *)
Definition hex4 (n : N) : str :=
  [hexdigit (n / 4096 mod 16); hexdigit (n / 256 mod 16);
   hexdigit (n / 16 mod 16); hexdigit (n mod 16)].

Definition escape_u (n : N) : str := BACKSLASH :: 117 :: hex4 n.

(** One character of [py_encode_basestring_ascii]: the short escapes,
    printable ASCII as it is, [\uXXXX] for the rest of the BMP and a
    surrogate pair above it. *)
Definition encode_char (c : N) : str :=
  if c =? QUOTE then [BACKSLASH; QUOTE]
  else if c =? BACKSLASH then [BACKSLASH; BACKSLASH]
  else if c =? 10 then [BACKSLASH; 110]
  else if c =? 13 then [BACKSLASH; 114]
  else if c =? 9 then [BACKSLASH; 116]
  else if c =? 8 then [BACKSLASH; 98]
  else if c =? 12 then [BACKSLASH; 102]
  else if (32 <=? c) && (c <=? 126) then [c]
  else if c <? 65536 then escape_u c
  else
    let n := c - 65536 in
    escape_u (N.lor 55296 (N.land (N.shiftr n 10) 1023))
    ++ escape_u (N.lor 56320 (N.land n 1023)).

Definition encode_string (s : str) : str :=
  QUOTE :: flat_map encode_char s ++ [QUOTE].

(** [', '.join(items)] *)
Fixpoint join_items (items : list str) : str :=
  match items with
  | [] => []
  | [x] => x
  | x :: rest => x ++ u ", " ++ join_items rest
  end.

Definition dumps (v : field) : str :=
  match v with
  | FNone => u "null"
  | FStr s => encode_string s
  | FList l => u "[" ++ join_items (map encode_string l) ++ u "]"
  end.

Definition unhex (c : N) : option N :=
  if (48 <=? c) && (c <=? 57) then Some (c - 48)
  else if (97 <=? c) && (c <=? 102) then Some (c - 87)
  else if (65 <=? c) && (c <=? 70) then Some (c - 55)
  else None.

Definition hex4_value (a b c d : N) : option N :=
  match unhex a, unhex b, unhex c, unhex d with
  | Some x, Some y, Some z, Some t => Some (x * 4096 + y * 256 + z * 16 + t)
  | _, _, _, _ => None
  end.

Definition is_high_surrogate (c : N) : bool := (55296 <=? c) && (c <=? 56319).
Definition is_low_surrogate (c : N) : bool := (56320 <=? c) && (c <=? 57343).

Definition join_surrogates (hi lo : N) : N :=
  N.lor (N.shiftl (N.land hi 1023) 10) (N.land lo 1023) + 65536.

(** The character a one-letter escape stands for. *)
Definition simple_escape (e : N) : option N :=
  if e =? QUOTE then Some QUOTE
  else if e =? BACKSLASH then Some BACKSLASH
  else if e =? 47 then Some 47
  else if e =? 98 then Some 8
  else if e =? 102 then Some 12
  else if e =? 110 then Some 10
  else if e =? 114 then Some 13
  else if e =? 116 then Some 9
  else None.

Definition cons_fst (c : N) (r : option (str * str)) : option (str * str) :=
  match r with
  | Some (s, rest) => Some (c :: s, rest)
  | None => None
  end.

(** [scanstring], entered after the opening quote: the decoded string
    and the text after the closing quote; [None] where it raises. An
    escaped high surrogate followed by an escaped low surrogate is one
    character. *)
Fixpoint scanstring (s : str) : option (str * str) :=
  match s with
  | [] => None
  | c :: s1 =>
      if c =? QUOTE then Some ([], s1)
      else if c =? BACKSLASH then
        match s1 with
        | [] => None
        | e :: s2 =>
            if e =? 117 then
              match s2 with
              | h1 :: h2 :: h3 :: h4 :: s3 =>
                  match hex4_value h1 h2 h3 h4 with
                  | None => None
                  | Some v =>
                      if is_high_surrogate v then
                        match s3 with
                        | b :: e' :: l1 :: l2 :: l3 :: l4 :: s4 =>
                            if (b =? BACKSLASH) && (e' =? 117) then
                              match hex4_value l1 l2 l3 l4 with
                              | None => None
                              | Some v2 =>
                                  if is_low_surrogate v2
                                  then cons_fst (join_surrogates v v2) (scanstring s4)
                                  else cons_fst v (scanstring s3)
                              end
                            else cons_fst v (scanstring s3)
                        | _ => cons_fst v (scanstring s3)
                        end
                      else cons_fst v (scanstring s3)
                  end
              | _ => None
              end
            else
              match simple_escape e with
              | Some ch => cons_fst ch (scanstring s2)
              | None => None
              end
        end
      else if c <? 32 then None
      else cons_fst c (scanstring s1)
  end.

(** JSON white space: space, tab, line feed, carriage return. *)
Definition ws (c : N) : bool := (c =? 32) || (c =? 9) || (c =? 10) || (c =? 13).

Fixpoint skip_ws (s : str) : str :=
  match s with
  | c :: s' => if ws c then skip_ws s' else s
  | [] => []
  end.

(** The items of an array from the first one on, up to the closing
    bracket. Every item costs one unit of [fuel]. An item that is not a
    string is outside [field]. *)
Fixpoint parse_items (fuel : nat) (s : str) : option (list str * str) :=
  match fuel with
  | O => None
  | S fuel' =>
      match s with
      | c :: s1 =>
          if c =? QUOTE then
            match scanstring s1 with
            | None => None
            | Some (item, rest) =>
                match skip_ws rest with
                | d :: rest' =>
                    if d =? 93 then Some ([item], rest')
                    else if d =? 44 then
                      match parse_items fuel' (skip_ws rest') with
                      | Some (items, rest'') => Some (item :: items, rest'')
                      | None => None
                      end
                    else None
                | [] => None
                end
            end
          else None
      | [] => None
      end
  end.

Definition parse_value (s : str) : option (field * str) :=
  match s with
  | c :: s1 =>
      if c =? QUOTE then
        match scanstring s1 with
        | Some (x, rest) => Some (FStr x, rest)
        | None => None
        end
      else if c =? 91 then
        match skip_ws s1 with
        | d :: rest =>
            if d =? 93 then Some (FList [], rest)
            else
              match parse_items (length s1) (skip_ws s1) with
              | Some (items, rest') => Some (FList items, rest')
              | None => None
              end
        | [] => None
        end
      else if startswith (u "null") s then Some (FNone, drop 4 s)
      else None
  | [] => None
  end.

(** [json.loads]: [None] where it raises, and for a text whose value is
    not a [field]. *)
Definition loads (s : str) : option field :=
  match parse_value (skip_ws s) with
  | Some (v, rest) =>
      match skip_ws rest with
      | [] => Some v
      | _ :: _ => None
      end
  | None => None
  end.

(** ** Text that survives the round trip

    Code points of the Unicode range, as in every Python string, with
    no high surrogate directly before a low surrogate. *)

Definition is_code_point (c : N) : bool := c <=? 1114111.

Fixpoint no_split_pair (s : str) : bool :=
  match s with
  | c :: s' =>
      match s' with
      | d :: _ => negb (is_high_surrogate c && is_low_surrogate d)
      | [] => true
      end && no_split_pair s'
  | [] => true
  end.

Definition plain_text (s : str) : bool :=
  forallb is_code_point s && no_split_pair s.

Definition plain_field (v : field) : bool :=
  match v with
  | FNone => true
  | FStr s => plain_text s
  | FList l => forallb plain_text l
  end.

(** What [scanstring] checks after an escaped high surrogate: whether
    an escape follows that is a low surrogate, or is malformed. *)
Definition low_escape_ahead (s3 : str) : bool :=
  match s3 with
  | b :: e' :: l1 :: l2 :: l3 :: l4 :: _ =>
      (b =? BACKSLASH) && (e' =? 117)
      && match hex4_value l1 l2 l3 l4 with
         | Some v2 => is_low_surrogate v2
         | None => true
         end
  | _ => false
  end.

End Json.
Import Json.

(** ** database.py

    The [user_profiles] table as the list of its rows, in rowid order.
    All columns have TEXT affinity and hold NULL or a text. The table
    is taken as created ([init_database]) and the file as reachable:
    the errors modelled are those of the statements themselves. *)

Module Database.

Inductive sqlval :=
| NULL
| TEXT (s : str).

Record row := {
  user_id : sqlval;
  name : sqlval;
  email : sqlval;
  timezone : sqlval;
  preferred_notification_times : sqlval;
  content_preferences : sqlval;
  created_at : sqlval;
  updated_at : sqlval;
}.

Definition utf8_encodable (s : str) : bool := forallb is_scalar s.

(** Binding a parameter of a statement: [None] is NULL, a string is
    stored as UTF-8 text, a list is not supported ([None]: it raises). *)
Definition bind_param (v : field) : option sqlval :=
  match v with
  | FNone => Some NULL
  | FStr s => if utf8_encodable s then Some (TEXT s) else None
  | FList _ => None
  end.

(** Reading a column back into Python. *)
Definition of_sql (v : sqlval) : field :=
  match v with
  | NULL => FNone
  | TEXT s => FStr s
  end.

(** [a = b] in a WHERE clause or a uniqueness check: never true on NULL. *)
Definition sql_eq (a b : sqlval) : bool :=
  match a, b with
  | TEXT s, TEXT t => bool_decide (s = t)
  | _, _ => false
  end.

Definition not_null (v : sqlval) : bool :=
  match v with NULL => false | TEXT _ => true end.

(** [email UNIQUE] against the rows a statement leaves as they are. *)
Definition unique_email (e : sqlval) (others : list row) : bool :=
  forallb (fun r => negb (sql_eq (email r) e)) others.

(** [SELECT ... WHERE user_id = ?] then [fetchone()] *)
Definition select_by_user_id (db : list row) (uid : sqlval) : option row :=
  find (fun r => sql_eq (user_id r) uid) db.

(** The UPDATE statement of [save_user_profile]; [None]: IntegrityError. *)
Definition sql_update (now : str) (db : list row)
    (nm em tz nt cp uid : sqlval) : option (list row) :=
  if not_null nm && not_null em
     && unique_email em (filter (fun r => negb (sql_eq (user_id r) uid)) db)
  then Some (map (fun r =>
                    if sql_eq (user_id r) uid
                    then {| user_id := user_id r; name := nm; email := em;
                            timezone := tz;
                            preferred_notification_times := nt;
                            content_preferences := cp;
                            created_at := created_at r;
                            updated_at := TEXT now |}
                    else r) db)
  else None.

(** The INSERT statement; [user_id] is the primary key of a rowid
    table, where NULL is accepted. *)
Definition sql_insert (now : str) (db : list row)
    (uid nm em tz nt cp : sqlval) : option (list row) :=
  if forallb (fun r => negb (sql_eq (user_id r) uid)) db
     && not_null nm && not_null em && unique_email em db
  then Some (db ++ [{| user_id := uid; name := nm; email := em;
                       timezone := tz;
                       preferred_notification_times := nt;
                       content_preferences := cp;
                       created_at := TEXT now;
                       updated_at := TEXT now |}])
  else None.

(** The body of the [try] of [save_user_profile]: the table after
    [commit], or [None] where a KeyError, a binding error or a
    constraint ends it before. *)
Definition save_attempt (now : str) (db : list row)
    (profile : gmap string field) : option (list row) :=
  let notification_times_json :=
    dumps (default (FList []) (profile !! "preferred_notification_times")) in
  let content_prefs_json :=
    dumps (default (FList []) (profile !! "content_preferences")) in
  uid ← profile !! "user_id" ≫= bind_param;
  nt ← bind_param (FStr notification_times_json);
  cp ← bind_param (FStr content_prefs_json);
  match select_by_user_id db uid with
  | Some _ =>
      nm ← profile !! "name" ≫= bind_param;
      em ← profile !! "email" ≫= bind_param;
      tz ← bind_param (default (FStr (u "UTC")) (profile !! "timezone"));
      sql_update now db nm em tz nt cp uid
  | None =>
      nm ← profile !! "name" ≫= bind_param;
      em ← profile !! "email" ≫= bind_param;
      tz ← bind_param (default (FStr (u "UTC")) (profile !! "timezone"));
      sql_insert now db uid nm em tz nt cp
  end.

(** [save_user_profile]: its value and the table it leaves. Nothing is
    committed when it returns [False]. *)
Definition save_user_profile (now : str) (db : list row)
    (profile : gmap string field) : bool * list row :=
  match save_attempt now db profile with
  | Some db' => (true, db')
  | None => (false, db)
  end.

(** [dict(row)] *)
Definition dict_of_row (r : row) : gmap string field :=
  <["user_id" := of_sql (user_id r)]>
  (<["name" := of_sql (name r)]>
  (<["email" := of_sql (email r)]>
  (<["timezone" := of_sql (timezone r)]>
  (<["preferred_notification_times" := of_sql (preferred_notification_times r)]>
  (<["content_preferences" := of_sql (content_preferences r)]>
  (<["created_at" := of_sql (created_at r)]>
  (<["updated_at" := of_sql (updated_at r)]> ∅))))))).

(** [column or "[]"]: NULL and the empty text give ["[]"]. *)
Definition or_empty_list (v : sqlval) : str :=
  match v with
  | TEXT (c :: s) => c :: s
  | _ => u "[]"
  end.

Definition get_user_profile (db : list row) (uid : str)
  : option (gmap string field) :=
  uid' ← bind_param (FStr uid);
  r ← select_by_user_id db uid';
  nt ← loads (or_empty_list (preferred_notification_times r));
  cp ← loads (or_empty_list (content_preferences r));
  Some (<["content_preferences" := cp]>
        (<["preferred_notification_times" := nt]> (dict_of_row r))).

(** The table after a run of saves, each with the time it was made. *)
Fixpoint saves (db : list row) (ps : list (str * gmap string field))
  : list row :=
  match ps with
  | [] => db
  | (now, p) :: ps' => saves (save_user_profile now db p).2 ps'
  end.

End Database.

(** ** The Budget Policy Engine *)

Module Policy.

Record PaymentChallenge := {
  amount : Q;
  asset : str;
  recipient : str;
  reference : str;
  expiry : option Z;
  resourceURL : str;
}.

Record BudgetProfile := {
  identifier : str;
  tier : str;
  budgetLimit : Q;
  preference : str;
}.

Inductive reason := expired | over_budget | policy_fit.

Inductive Decision :=
| approve
| reject (why : reason).

(** The expiry is set and has passed. *)
Definition has_expired (now : Z) (challenge : PaymentChallenge) : bool :=
  match expiry challenge with
  | Some t => (t <? now)%Z
  | None => false
  end.

Section Decide.

(** The optional advisory sub-step: whether the challenge fits the
    preference text. *)
Variable advisory : PaymentChallenge -> BudgetProfile -> bool.

(** Modelled from the spec: the decision function of the accountant
    service, [agents/accountant.py], which is not among the sources;
    section 4.2 gives its three steps and the advisory sub-step. *)
Definition decide (now : Z) (challenge : PaymentChallenge)
    (profile : BudgetProfile) : Decision :=
  if has_expired now challenge
  then reject expired
  else if negb (Qle_bool (amount challenge) (budgetLimit profile))
  then reject over_budget
  else if advisory challenge profile then approve
  else reject policy_fit.

End Decide.

End Policy.

(** ** Properties of a trace *)

Module Trace.

Definition is_submit (e : event) : bool :=
  match e with
  | EvAccountant _ _ => true
  | _ => false
  end.

Definition is_wait (e : event) : bool :=
  match e with
  | EvSleep _ => true
  | _ => false
  end.

Definition is_get (e : event) : bool :=
  match e with
  | EvGet _ _ => true
  | _ => false
  end.

(** A GET that carries a credential. *)
Definition is_redeem (e : event) : bool :=
  match e with
  | EvGet _ (_ :: _) => true
  | _ => false
  end.

(** Every [Q] event of the trace has a [P] event strictly before it. *)
Definition precedes (P Q : event -> bool) (t : list event) : Prop :=
  forall t1 e t2, t = t1 ++ e :: t2 -> Q e = true ->
    exists e', e' ∈ t1 /\ P e' = true.

(** The same, as a scan of the trace that remembers whether a [P]
    event was seen. *)
Fixpoint precedes_from (P Q : event -> bool) (seen : bool) (t : list event)
  : bool :=
  match t with
  | [] => true
  | e :: t' => (negb (Q e) || seen) && precedes_from P Q (seen || P e) t'
  end.

End Trace.

(** ** Some worlds *)

Module Scenario.

Definition challenge : gmap string pyval :=
  <["amount" := PNum (5 # 100)]>
  (<["asset" := PStr (u "SOL")]>
  (<["recipient" := PStr (u "X")]>
  (<["reference" := PStr (u "r1")]> ∅))).

Definition article : gmap string pyval :=
  <["title" := PStr (u "Premium report")]> ∅.

Definition payment_required (body : gmap string pyval) : handler :=
  fun _ _ => Ok {| status_code := 402; text := u "payment required";
                   json := Ok (PDict body) |}.


(** Serves the article to a request that carries a credential. *)
Definition paid_content : handler :=
  fun _ headers =>
    match headers with
    | _ :: _ => Ok {| status_code := 200; text := u "ok";
                      json := Ok (PDict article) |}
    | [] => Ok {| status_code := 402; text := u "payment required";
                  json := Ok (PDict challenge) |}
    end.

Definition news : str := u "Apple shares rose two percent after the earnings call.".

(** A world where everything answers: the agent finds news, the
    accountant pays, the server asks for payment once and then serves. *)
Definition calm : world := {|
  chat_openai := Ok tt;
  get_tools := Ok tt;
  ainvoke := fun _ => Ok news;
  run_accountant_service := fun _ _ => Ok (u "PAYMENT_SUCCESSFUL: 5Kx9abc");
  disconnect := Ok tt;
  ensure_mcp_server_running := fun _ => Ok true;
  content_server := [payment_required challenge; paid_content];
|}.

(** The model provider cannot be reached. *)
Definition offline : world := {|
  chat_openai := Ok tt;
  get_tools := Ok tt;
  ainvoke := fun _ => Raise ConnectionError;
  run_accountant_service := run_accountant_service calm;
  disconnect := Ok tt;
  ensure_mcp_server_running := fun _ => Ok true;
  content_server := [];
|}.

(** The challenge comes without any of its fields. *)
Definition empty_challenge : world := {|
  chat_openai := Ok tt;
  get_tools := Ok tt;
  ainvoke := fun _ => Ok news;
  run_accountant_service := fun _ _ => Ok (u "REJECTED: nothing to pay");
  disconnect := Ok tt;
  ensure_mcp_server_running := fun _ => Ok true;
  content_server := [payment_required ∅; paid_content];
|}.

(** Scenario D: the settlement raises. *)
Definition failed_settlement : world := {|
  chat_openai := Ok tt;
  get_tools := Ok tt;
  ainvoke := fun _ => Ok news;
  run_accountant_service := fun _ _ => Raise ConnectionError;
  disconnect := Ok tt;
  ensure_mcp_server_running := fun _ => Ok true;
  content_server := [payment_required challenge; paid_content];
|}.


(** What section 4.1 of the specification asks of a challenge: the
    four fields, a numeric amount, a recipient that is not empty. *)
Definition required_fields_present (o : pyobj) : bool :=
  match o with
  | PDict d =>
      match d !! "amount", d !! "asset", d !! "recipient", d !! "reference" with
      | Some (PNum _), Some (PStr _), Some (PStr (_ :: _)), Some (PStr _) => true
      | _, _, _, _ => false
      end
  | PVal _ => false
  end.

(** The marker the search tool puts in a payment-required answer. *)
Definition is_payment_challenge (agent_response : str) : bool :=
  contains (u "__402_payment_required__") agent_response.

End Scenario.

(** ** Reading the accountant's answer *)

Module Outcome.

(** The transaction hash [test_accountant_agent] reads in the outcome
    of the accountant call, if it reads one: the answer has to contain
    [PAYMENT_SUCCESSFUL] and the pattern has to match. *)
Definition reported_hash (r : result str) : option str :=
  match r with
  | Ok agent_res =>
      if contains Main.PAYMENT_SUCCESSFUL agent_res
      then Main.re_search agent_res
      else None
  | Raise _ => None
  end.

(** The same world with another content server. *)
Definition with_server (w : world) (srv : list handler) : world := {|
  chat_openai := chat_openai w;
  get_tools := get_tools w;
  ainvoke := ainvoke w;
  run_accountant_service := run_accountant_service w;
  disconnect := disconnect w;
  ensure_mcp_server_running := ensure_mcp_server_running w;
  content_server := srv;
|}.

End Outcome.

(** ** Profiles for the table *)

Module Sample.

Definition alice : gmap string field :=
  <["user_id" := FStr (u "alice")]>
  (<["name" := FStr (u "Alice")]>
  (<["email" := FStr (u "alice@example.org")]>
  (<["preferred_notification_times" := FList [u "09:00"; u "21:30"]]>
  (<["content_preferences" := FList [u "tech"; 99 :: 114 :: 121 :: 112 :: 116 :: 111 :: [128640]]]>
   ∅)))).

(** The same with a preference written as two surrogate code points,
    a high one and then a low one. *)
Definition split_pair : gmap string field :=
  <["content_preferences" := FList [[55357; 56832]]]> alice.

Definition noon : str := u "2025-01-07 12:00:00".

End Sample.

(** ** database.py, the other queries *)

Module Store.
Import Database.

(** [SELECT * FROM user_profiles WHERE email = ?] then [fetchone()] *)
Definition select_by_email (db : list row) (em : sqlval) : option row :=
  find (fun r => sql_eq (email r) em) db.

Definition get_user_profile_by_email (db : list row) (em : str)
  : option (gmap string field) :=
  em' ← bind_param (FStr em);
  r ← select_by_email db em';
  nt ← loads (or_empty_list (preferred_notification_times r));
  cp ← loads (or_empty_list (content_preferences r));
  Some (<["content_preferences" := cp]>
        (<["preferred_notification_times" := nt]> (dict_of_row r))).

(** Texts compare as their code points do, a shorter text before its
    extensions. *)
Fixpoint str_leb (s t : str) : bool :=
  match s, t with
  | [], _ => true
  | _ :: _, [] => false
  | a :: s', b :: t' => (a <? b) || ((a =? b) && str_leb s' t')
  end.

(** [a <= b] between column values: NULL sorts before every text. *)
Definition sql_leb (a b : sqlval) : bool :=
  match a, b with
  | NULL, _ => true
  | TEXT _, NULL => false
  | TEXT s, TEXT t => str_leb s t
  end.

(** [ORDER BY created_at DESC], as an insertion sort: rows with equal
    keys stay in rowid order here, where SQLite promises no order. *)
Fixpoint insert_desc (r : row) (sorted : list row) : list row :=
  match sorted with
  | [] => [r]
  | x :: rest =>
      if sql_leb (created_at x) (created_at r)
      then r :: x :: rest
      else x :: insert_desc r rest
  end.

Definition order_by_created_at_desc (db : list row) : list row :=
  foldr insert_desc [] db.

(** The loop of [list_all_profiles]: a row whose JSON does not load
    ends it with an exception ([None]). *)
Fixpoint profiles_of_rows (rows : list row)
  : option (list (gmap string field)) :=
  match rows with
  | [] => Some []
  | r :: rows' =>
      nt ← loads (or_empty_list (preferred_notification_times r));
      cp ← loads (or_empty_list (content_preferences r));
      profiles ← profiles_of_rows rows';
      Some (<["content_preferences" := cp]>
            (<["preferred_notification_times" := nt]> (dict_of_row r))
            :: profiles)
  end.

Definition list_all_profiles (db : list row) : list (gmap string field) :=
  default [] (profiles_of_rows (order_by_created_at_desc db)).

(** The texts of a column, NULLs left out. *)
Definition texts (col : row -> sqlval) (db : list row) : list str :=
  omap (fun r => match col r with TEXT s => Some s | NULL => None end) db.

(** What the schema asks of the table: [user_id] a key, [email]
    unique, [name] and [email] not NULL. *)
Definition valid (db : list row) : Prop :=
  NoDup (texts user_id db)
  /\ NoDup (texts email db)
  /\ Forall (fun r => not_null (name r) = true /\ not_null (email r) = true) db.

(** The two JSON columns hold what [dumps] wrote for text that
    survives the round trip. *)
Definition json_written (r : row) : Prop :=
  exists nt cp,
    plain_field nt = true /\ plain_field cp = true
    /\ preferred_notification_times r = TEXT (dumps nt)
    /\ content_preferences r = TEXT (dumps cp).

(** A value of [name] or [email] that ends a save before the commit:
    the key is missing (KeyError), the value is [None] (NOT NULL), a
    list (it cannot be bound) or text UTF-8 cannot encode. *)
Definition refused (v : option field) : bool :=
  match v with
  | Some (FStr s) => negb (utf8_encodable s)
  | _ => true
  end.

(** The lists of a profile are given and made of such text. *)
Definition plain_profile (p : gmap string field) : Prop :=
  plain_field (default (FList []) (p !! "preferred_notification_times")) = true
  /\ plain_field (default (FList []) (p !! "content_preferences")) = true.

End Store.

(** ** More sample profiles *)

Module People.

Definition bob : gmap string field :=
  <["user_id" := FStr (u "bob")]>
  (<["name" := FStr (u "Bob")]>
  (<["email" := FStr (u "bob@example.org")]>
  (<["preferred_notification_times" := FList [u "07:15"]]>
  (<["content_preferences" := FList [u "macro"]]> ∅)))).

(** Another user who gives the e-mail address of [Sample.alice]. *)
Definition mallory : gmap string field :=
  <["user_id" := FStr (u "mallory")]>
  (<["name" := FStr (u "Mallory")]>
  (<["email" := FStr (u "alice@example.org")]>
  (<["preferred_notification_times" := FList []]>
  (<["content_preferences" := FList []]> ∅)))).

(** [Sample.alice] with [None] for a name. *)
Definition nameless : gmap string field :=
  <["name" := FNone]> Sample.alice.

Definition evening : str := u "2025-01-07 19:30:00".

(** The table after [Sample.alice] was saved at noon. *)
Definition one_user : list Database.row :=
  (Database.save_user_profile Sample.noon [] Sample.alice).2.

(** Its row, and the profile read from it. *)
Definition alice_row : Database.row := {|
  Database.user_id := Database.TEXT (u "alice");
  Database.name := Database.TEXT (u "Alice");
  Database.email := Database.TEXT (u "alice@example.org");
  Database.timezone := Database.TEXT (u "UTC");
  Database.preferred_notification_times :=
    Database.TEXT (dumps (FList [u "09:00"; u "21:30"]));
  Database.content_preferences :=
    Database.TEXT
      (dumps (FList [u "tech"; 99 :: 114 :: 121 :: 112 :: 116 :: 111 :: [128640]]));
  Database.created_at := Database.TEXT Sample.noon;
  Database.updated_at := Database.TEXT Sample.noon;
|}.

Definition alice_stored : gmap string field :=
  <["content_preferences" :=
      FList [u "tech"; 99 :: 114 :: 121 :: 112 :: 116 :: 111 :: [128640]]]>
  (<["preferred_notification_times" := FList [u "09:00"; u "21:30"]]>
   (Database.dict_of_row alice_row)).

End People.

(** ** api_server.py *)

Module Api.
Import Database Store.

Definition COMMA : N := 44.
Definition AT : N := 64.

(** [s.split(sep)] for a separator of one character. *)
Fixpoint split (sep : N) (s : str) : list str :=
  match s with
  | [] => [[]]
  | c :: s' =>
      if c =? sep then [] :: split sep s'
      else
        match split sep s' with
        | piece :: pieces => (c :: piece) :: pieces
        | [] => [[c]]
        end
  end.

(** [[t.strip() for t in s.split(",") if t.strip()]] *)
Definition stripped_items (s : str) : list str :=
  flat_map (fun t => if truthy (strip t) then [strip t] else [])
           (split COMMA s).

Definition parse_notification_times (notification_time : str) : list str :=
  if truthy notification_time then stripped_items notification_time else [].

Definition parse_interests (interests : str) : list str :=
  if truthy interests then
    if contains [COMMA] interests then stripped_items interests
    else [strip interests]
  else [].

(** [email.split("@")[0]] *)
Definition user_id_of_email (email : str) : str := hd [] (split AT email).

(** What leaves an endpoint instead of a value: an [HTTPException] with
    its status and detail. The detail of a re-raised exception is a
    prefix followed by [str(e)] of the cause, kept here as the cause. *)
Inductive thrown :=
| PyExn (e : exn)
| HTTPException (status_code : Z) (detail : detail)
with detail :=
| Text (s : str)
| Prefixed (prefix : str) (cause : thrown).

Inductive answer (A : Type) :=
| Returns (a : A)
| Raises (status_code : Z) (d : detail).
Arguments Returns {A} a.
Arguments Raises {A} status_code d.

Record UserProfileResponse := {
  status : str;
  message : str;
  user_id : str;
  profile : gmap string field;
}.

(** [POST /api/profile]. [database] tells whether the import of the
    database functions succeeded; without them the calls raise
    [NameError]. The request arrives validated: four strings, [email]
    being the address as the validation of [EmailStr] leaves it. *)
Definition create_user_profile (database : bool) (now : str) (db : list row)
    (name email notification_time interests : str)
  : answer UserProfileResponse * list row :=
  let notification_times := parse_notification_times notification_time in
  let interests_list := parse_interests interests in
  let user_id := user_id_of_email email in
  let user_profile : gmap string field :=
    <["user_id" := FStr user_id]>
    (<["name" := FStr name]>
    (<["email" := FStr email]>
    (<["timezone" := FStr (u "UTC")]>
    (<["preferred_notification_times" := FList notification_times]>
    (<["content_preferences" := FList interests_list]> ∅))))) in
  if negb database then
    (Returns {| status := u "warning";
                message := u "Profile created but not saved (database unavailable). User: "
                           ++ name;
                user_id := user_id; profile := user_profile |}, db)
  else
    match get_user_profile_by_email db email with
    | Some existing_profile =>
        match existing_profile !! "user_id" with
        | Some (FStr existing_id) =>
            (Returns {| status := u "already_registered";
                        message := u "User " ++ name ++ u " (" ++ email
                                   ++ u ") has already been registered.";
                        user_id := existing_id;
                        profile := existing_profile |}, db)
        | _ =>
            (Raises 500 (Prefixed (u "Error creating profile: ")
                           (PyExn (OtherError "ValidationError"))), db)
        end
    | None =>
        let '(success, db') := save_user_profile now db user_profile in
        if success then
          (Returns {| status := u "success";
                      message := u "Profile created successfully for " ++ name;
                      user_id := user_id; profile := user_profile |}, db')
        else
          (Raises 500
             (Prefixed (u "Error creating profile: ")
                (HTTPException 500 (Text (u "Failed to save profile to database")))),
           db')
    end.

(** [GET /api/profile/{user_id}]: the 404 is raised inside the [try]
    whose last clause catches every [Exception]. *)
Definition get_user_profile_endpoint (database : bool) (db : list row)
    (user_id : str) : answer (str * gmap string field) :=
  if negb database then Raises 503 (Text (u "Database not available"))
  else
    match get_user_profile db user_id with
    | Some profile => Returns (u "success", profile)
    | None =>
        Raises 500
          (Prefixed (u "Error retrieving profile: ")
             (HTTPException 404
                (Text (u "Profile not found for user_id: " ++ user_id))))
    end.

(** [GET /api/profile/email/{email}] *)
Definition get_user_profile_by_email_endpoint (database : bool)
    (db : list row) (email : str) : answer (str * gmap string field) :=
  if negb database then Raises 503 (Text (u "Database not available"))
  else
    match get_user_profile_by_email db email with
    | Some profile => Returns (u "success", profile)
    | None =>
        Raises 500
          (Prefixed (u "Error retrieving profile: ")
             (HTTPException 404
                (Text (u "Profile not found for email: " ++ email))))
    end.




End Api.

(** ** Registrations, for the statements about the API *)

Module Registration.
Import Database.

(** The row of a registration made at [created] and last saved at
    [updated]. *)
Definition row_of (created updated name email notification_time interests : str)
  : row := {|
  user_id := TEXT (Api.user_id_of_email email);
  name := TEXT name;
  email := TEXT email;
  timezone := TEXT (u "UTC");
  preferred_notification_times :=
    TEXT (dumps (FList (Api.parse_notification_times notification_time)));
  content_preferences := TEXT (dumps (FList (Api.parse_interests interests)));
  created_at := TEXT created;
  updated_at := TEXT updated;
|}.

(** The profile dictionary [create_user_profile] builds. *)
Definition profile_of (name email notification_time interests : str)
  : gmap string field :=
  <["user_id" := FStr (Api.user_id_of_email email)]>
  (<["name" := FStr name]>
  (<["email" := FStr email]>
  (<["timezone" := FStr (u "UTC")]>
  (<["preferred_notification_times" :=
       FList (Api.parse_notification_times notification_time)]>
  (<["content_preferences" := FList (Api.parse_interests interests)]> ∅))))).

(** The profile read back from such a row. *)
Definition stored (created updated name email notification_time interests : str)
  : gmap string field :=
  <["content_preferences" := FList (Api.parse_interests interests)]>
  (<["preferred_notification_times" :=
       FList (Api.parse_notification_times notification_time)]>
   (dict_of_row (row_of created updated name email notification_time interests))).

(** Neither the address nor the identifier made from it is in the
    table. *)
Definition fresh (db : list row) (email : str) : Prop :=
  Store.select_by_email db (TEXT email) = None
  /\ select_by_user_id db (TEXT (Api.user_id_of_email email)) = None.

(** The four strings of a request, as text UTF-8 can encode. *)
Definition well_formed (name email notification_time interests : str) : Prop :=
  utf8_encodable name = true /\ utf8_encodable email = true
  /\ utf8_encodable notification_time = true
  /\ utf8_encodable interests = true.

End Registration.

(** ** Two requests with one local part *)

Module Requests.

Definition alice_mail : str := u "alice@example.org".
Definition other_alice_mail : str := u "alice@elsewhere.example".
Definition morning : str := u "2025-01-07 08:00:00".
Definition later : str := u "2025-01-08 08:00:00".

End Requests.

(** ** Worlds that differ in one collaborator *)

Module Variation.

(** The same world with another outcome of the disconnection. *)
Definition with_disconnect (w : world) (r : result unit) : world := {|
  chat_openai := chat_openai w;
  get_tools := get_tools w;
  ainvoke := ainvoke w;
  run_accountant_service := run_accountant_service w;
  disconnect := r;
  ensure_mcp_server_running := ensure_mcp_server_running w;
  content_server := content_server w;
|}.

(** The answer of the agent is white space alone. *)
Definition blank_answer : world := {|
  chat_openai := Ok tt;
  get_tools := Ok tt;
  ainvoke := fun _ => Ok (u "  " ++ [LF]);
  run_accountant_service := run_accountant_service Scenario.calm;
  disconnect := Raise (OtherError "RuntimeError");
  ensure_mcp_server_running := fun _ => Ok false;
  content_server := [];
|}.

End Variation.

(** ** main.py: the news test *)

Module MainNews.

Definition default_context : str :=
  u "Search for news about Apple Inc. (AAPL) and recent technology developments".

(** Lines 123-138, the body of the [try]. [typed] is the line [input]
    reads, or the exception it raises; the value is what is printed as
    the response of the agent. *)
Definition body (w : world) (typed : result str) : prog unit str :=
  let* line := call_pure typed in
  let context := strip line in
  let context := if truthy context then context else default_context in
  fun s => let '(t, r) := Retriv.retriv_run_agent w context None in (t, s, r).

(** Lines 142-145: both processes are stopped under the test of the
    first one alone; [mcp_process2] may be [None] there. *)
Definition stop_servers (mcp_process mcp_process2 : bool) : prog unit unit :=
  if mcp_process then
    call EvTerminate (Ok tt) >>
    (if mcp_process2 then call EvTerminate (Ok tt) else raise AttributeError)
  else ret tt.

Definition test_news_agent (w : world) (typed : result str)
  : list event * result str :=
  let '(t, _, r) :=
    (let* mcp_process :=
       call (EvStartMCP "retrival_tools.py")
            (ensure_mcp_server_running w "retrival_tools.py") in
     let* mcp_process2 :=
       call (EvStartMCP "tool_pay.py")
            (ensure_mcp_server_running w "tool_pay.py") in
     try_finally (body w typed) (stop_servers mcp_process mcp_process2))
      tt in
  (t, r).

End MainNews.

(** ** Processes started and stopped *)

Module Lifecycle.

Definition is_terminate (e : event) : bool :=
  match e with
  | EvTerminate => true
  | _ => false
  end.

(** The same world with other answers of [ensure_mcp_server_running]. *)
Definition with_servers (w : world) (started : string -> result bool)
  : world := {|
  chat_openai := chat_openai w;
  get_tools := get_tools w;
  ainvoke := ainvoke w;
  run_accountant_service := run_accountant_service w;
  disconnect := disconnect w;
  ensure_mcp_server_running := started;
  content_server := content_server w;
|}.

(** The search server is started by the call, the payment server was
    running already. *)
Definition search_only (script : string) : result bool :=
  Ok (String.eqb script "retrival_tools.py").

(** The content server has gone after its first answer. *)
Definition server_lost : world :=
  Outcome.with_server Scenario.calm
    [Scenario.payment_required Scenario.challenge].

End Lifecycle.

(** ** What the accountant reports *)

Module Settlement.

(** What the pattern of [test_accountant_agent] starts with. *)
Definition marker : str := Main.PAYMENT_SUCCESSFUL ++ u ":".

(** An answer of the accountant that reports the transaction reference
    [tx]: some text, the marker, white space, the reference, the rest
    of the answer. *)
Definition report (before ws tx rest : str) : str :=
  before ++ marker ++ ws ++ tx ++ rest.

(** The marker begins at none of the first [n] positions of [s]. *)
Fixpoint marker_free (n : nat) (s : str) : bool :=
  match n, s with
  | S n', _ :: s' => negb (startswith marker s) && marker_free n' s'
  | _, _ => true
  end.

(** The reference ends with the answer, or before a character that is
    no letter and no digit. *)
Definition ends_reference (rest : str) : bool :=
  match rest with
  | [] => true
  | c :: _ => negb (Main.alnum c)
  end.

(** The accountant wraps its report in a sentence. *)
Definition wordy : world := {|
  chat_openai := Ok tt;
  get_tools := Ok tt;
  ainvoke := fun _ => Ok Scenario.news;
  run_accountant_service := fun _ _ =>
    Ok (u "Payment went through. PAYMENT_SUCCESSFUL: 5Kx9abc. Content follows.");
  disconnect := Ok tt;
  ensure_mcp_server_running := fun _ => Ok true;
  content_server :=
    [Scenario.payment_required Scenario.challenge; Scenario.paid_content];
|}.

(** The redemption is answered with status 200 and a body that is not
    JSON: [json()] raises. *)
Definition page_served : handler :=
  fun _ _ => Ok {| status_code := 200; text := u "<html>Premium report</html>";
                   json := Raise JSONDecodeError |}.

Definition html_content : world :=
  Outcome.with_server Scenario.calm
    [Scenario.payment_required Scenario.challenge; page_served].

(** The settlement is confirmed under the reference [5Kx9-abc]. *)
Definition hyphenated : world := {|
  chat_openai := Ok tt;
  get_tools := Ok tt;
  ainvoke := fun _ => Ok Scenario.news;
  run_accountant_service := fun _ _ => Ok (u "PAYMENT_SUCCESSFUL: 5Kx9-abc");
  disconnect := Ok tt;
  ensure_mcp_server_running := fun _ => Ok true;
  content_server :=
    [Scenario.payment_required Scenario.challenge; Scenario.paid_content];
|}.

End Settlement.

(** * Properties *)

Arguments u : simpl never.
Arguments Retriv.user_input : simpl never.
Arguments Retriv.default_profile : simpl never.
Arguments Main.vip_profile : simpl never.
Arguments Main.server_url : simpl never.
Arguments Main.PAYMENT_SUCCESSFUL : simpl never.

(** ** The retrieval agent *)

Section RetrivFacts.
Import Retriv.

Variable w : world.

(** What the payment handler does with each kind of profile. *)
Lemma handle_payment_required_eq info p s :
  _handle_payment_required w info p s =
  let prof := if dict_truthy p then default default_profile p
              else default_profile in
  ([EvAccountant (PVal (PStr info)) prof], s,
   run_accountant_service w (PVal (PStr info)) prof).
Proof. reflexivity. Qed.

(** [run] on a fresh agent, oracle by oracle. *)
Lemma run_fresh context p :
  run w context p {| mcp_client := false; agent_runnable := false |} =
  match get_tools w with
  | Raise e =>
      ([EvGetTools], {| mcp_client := true; agent_runnable := false |}, Raise e)
  | Ok _ =>
      let s := {| mcp_client := true; agent_runnable := true |} in
      match ainvoke w (user_input context) with
      | Raise e => ([EvGetTools; EvInvoke (user_input context)], s, Raise e)
      | Ok agent_response =>
          if truthy (strip agent_response)
          then ([EvGetTools; EvInvoke (user_input context);
                 EvAccountant (PVal (PStr (strip agent_response))) default_profile],
                s,
                run_accountant_service w (PVal (PStr (strip agent_response)))
                  default_profile)
          else ([EvGetTools; EvInvoke (user_input context)], s, Ok agent_response)
      end
  end.
Proof.
  unfold run, create_news_agent, setup_mcp_client, bind, get, put, call, ret.
  cbn.
  destruct (get_tools w) as [[]|e]; cbn; [|reflexivity].
  destruct (ainvoke w (user_input context)) as [resp|e]; cbn; [|reflexivity].
  destruct (truthy (strip resp)); cbn; [|reflexivity].
  destruct (run_accountant_service _ _ _); reflexivity.
Qed.

(** The whole call in closed form. *)
Lemma retriv_run_agent_eq context p :
  retriv_run_agent w context p =
  match chat_openai w with
  | Raise e => ([EvChatOpenAI], Raise e)
  | Ok _ =>
      match get_tools w with
      | Raise e => ([EvChatOpenAI; EvGetTools; EvDisconnect], Raise e)
      | Ok _ =>
          match ainvoke w (user_input context) with
          | Raise e =>
              ([EvChatOpenAI; EvGetTools; EvInvoke (user_input context);
                EvDisconnect], Raise e)
          | Ok agent_response =>
              if truthy (strip agent_response)
              then ([EvChatOpenAI; EvGetTools; EvInvoke (user_input context);
                     EvAccountant (PVal (PStr (strip agent_response)))
                       default_profile;
                     EvDisconnect],
                    run_accountant_service w
                      (PVal (PStr (strip agent_response))) default_profile)
              else ([EvChatOpenAI; EvGetTools; EvInvoke (user_input context);
                     EvDisconnect], Ok agent_response)
          end
      end
  end.
Proof.
  unfold retriv_run_agent, init, bind at 1.
  unfold call at 1.
  destruct (chat_openai w) as [[]|e]; [|reflexivity].
  unfold bind, put, try_finally. rewrite run_fresh.
  unfold cleanup, bind, get, try_pass, call.
  destruct (get_tools w) as [[]|e]; cbn.
  2: { destruct (disconnect w); reflexivity. }
  destruct (ainvoke w (user_input context)) as [resp|e]; cbn.
  2: { destruct (disconnect w); reflexivity. }
  destruct (truthy (strip resp)); cbn; destruct (disconnect w); reflexivity.
Qed.

End RetrivFacts.

(** ** The JSON round trip *)

Section JsonFacts.

Lemma lor_shifted a b k : b < 2 ^ k -> N.lor (a * 2 ^ k) b = a * 2 ^ k + b.
Proof.
  intros Hb.
  assert (Hdisjoint : N.land (a * 2 ^ k) b = 0).
  { apply N.bits_inj. intros i.
    rewrite N.land_spec, N.bits_0, <- N.shiftl_mul_pow2.
    destruct (N.lt_ge_cases i k) as [Hi|Hi].
    - by rewrite N.shiftl_spec_low.
    - rewrite <- (N.mod_small b (2 ^ k)) by done.
      rewrite N.mod_pow2_bits_high by done. apply andb_false_r. }
  rewrite N.add_nocarry_lxor by done. symmetry. by apply N.lxor_lor.
Qed.

Lemma land_1023 a : N.land a 1023 = a mod 1024.
Proof. change 1023 with (N.ones 10). by rewrite N.land_ones. Qed.

(** The two halves [dumps] writes for a character above the BMP, and
    what [loads] makes of them. *)
Lemma surrogate_halves c :
  65536 <= c -> c <= 1114111 ->
  N.lor 55296 (N.land (N.shiftr (c - 65536) 10) 1023) = 55296 + (c - 65536) / 1024
  /\ N.lor 56320 (N.land (c - 65536) 1023) = 56320 + (c - 65536) mod 1024.
Proof.
  intros Hlo Hhi. rewrite !land_1023, N.shiftr_div_pow2.
  change (2 ^ 10) with 1024.
  assert (Hq : (c - 65536) / 1024 < 1024).
  { apply N.Div0.div_lt_upper_bound. lia. }
  rewrite (N.mod_small _ 1024 Hq).
  pose proof (N.mod_upper_bound (c - 65536) 1024).
  split.
  - apply (lor_shifted 54 _ 10). exact Hq.
  - apply (lor_shifted 55 _ 10). lia.
Qed.

Lemma join_surrogates_halves c :
  65536 <= c -> c <= 1114111 ->
  join_surrogates (55296 + (c - 65536) / 1024) (56320 + (c - 65536) mod 1024) = c.
Proof.
  intros Hlo Hhi. unfold join_surrogates.
  assert (Hq : (c - 65536) / 1024 < 1024).
  { apply N.Div0.div_lt_upper_bound. lia. }
  assert (Hr : (c - 65536) mod 1024 < 1024) by (apply N.mod_upper_bound; lia).
  rewrite !land_1023, N.shiftl_mul_pow2.
  replace ((55296 + (c - 65536) / 1024) mod 1024) with ((c - 65536) / 1024).
  2: { symmetry. change 55296 with (54 * 1024).
       rewrite N.add_comm, N.Div0.mod_add. by apply N.mod_small. }
  replace ((56320 + (c - 65536) mod 1024) mod 1024) with ((c - 65536) mod 1024).
  2: { symmetry. change 56320 with (55 * 1024).
       rewrite N.add_comm, N.Div0.mod_add. by apply N.mod_small. }
  rewrite lor_shifted by exact Hr. change (2 ^ 10) with 1024.
  pose proof (N.div_mod (c - 65536) 1024). lia.
Qed.

Lemma unhex_hexdigit d : d < 16 -> unhex (hexdigit d) = Some d.
Proof.
  intros Hd.
  assert (d = 0 \/ d = 1 \/ d = 2 \/ d = 3 \/ d = 4 \/ d = 5 \/ d = 6 \/ d = 7
          \/ d = 8 \/ d = 9 \/ d = 10 \/ d = 11 \/ d = 12 \/ d = 13 \/ d = 14
          \/ d = 15) as Hcases by lia.
  repeat (destruct Hcases as [->|Hcases]; [reflexivity|]). by subst.
Qed.

Lemma hex4_value_hex4 n rest :
  n < 65536 ->
  exists h1 h2 h3 h4,
    hex4 n ++ rest = h1 :: h2 :: h3 :: h4 :: rest
    /\ hex4_value h1 h2 h3 h4 = Some n.
Proof.
  intros Hn. do 4 eexists. split; [reflexivity|].
  unfold hex4_value.
  rewrite !unhex_hexdigit by (apply N.mod_upper_bound; lia).
  f_equal.
  pose proof (N.div_mod n 16). pose proof (N.div_mod (n / 16) 16).
  pose proof (N.div_mod (n / 16 / 16) 16).
  rewrite !N.Div0.div_div in *. change (16 * 16) with 256 in *.
  change (256 * 16) with 4096 in *.
  assert (n / 4096 < 16) by (apply N.Div0.div_lt_upper_bound; lia).
  rewrite (N.mod_small (n / 4096) 16) in * by done. lia.
Qed.

Lemma scanstring_escape_u h1 h2 h3 h4 s3 :
  scanstring (BACKSLASH :: 117 :: h1 :: h2 :: h3 :: h4 :: s3) =
  match hex4_value h1 h2 h3 h4 with
  | None => None
  | Some v =>
      if is_high_surrogate v then
        match s3 with
        | b :: e' :: l1 :: l2 :: l3 :: l4 :: s4 =>
            if (b =? BACKSLASH) && (e' =? 117) then
              match hex4_value l1 l2 l3 l4 with
              | None => None
              | Some v2 =>
                  if is_low_surrogate v2
                  then cons_fst (join_surrogates v v2) (scanstring s4)
                  else cons_fst v (scanstring s3)
              end
            else cons_fst v (scanstring s3)
        | _ => cons_fst v (scanstring s3)
        end
      else cons_fst v (scanstring s3)
  end.
Proof. reflexivity. Qed.

Lemma no_escape_ahead b tail :
  b <> BACKSLASH -> low_escape_ahead (b :: tail) = false.
Proof.
  intros Hb%N.eqb_neq.
  destruct tail as [|e' [|l1 [|l2 [|l3 [|l4 s4]]]]]; try reflexivity.
  cbn. by rewrite Hb.
Qed.

Lemma short_escape_ahead e' tail :
  e' <> 117 -> low_escape_ahead (BACKSLASH :: e' :: tail) = false.
Proof.
  intros He%N.eqb_neq.
  destruct tail as [|l1 [|l2 [|l3 [|l4 s4]]]]; try reflexivity.
  cbn [low_escape_ahead]. by rewrite He, andb_false_r.
Qed.

Lemma escape_u_ahead v tail :
  v < 65536 -> low_escape_ahead (escape_u v ++ tail) = is_low_surrogate v.
Proof.
  intros Hv. unfold escape_u. cbn [app].
  destruct (hex4_value_hex4 v tail) as (h1 & h2 & h3 & h4 & Hshape & Hval);
    [done|].
  rewrite Hshape. cbn [low_escape_ahead]. by rewrite !N.eqb_refl, Hval.
Qed.

(** The halves of a character above the BMP. *)
Lemma halves_are_surrogates c :
  65536 <= c -> c <= 1114111 ->
  exists hi lo,
    N.lor 55296 (N.land (N.shiftr (c - 65536) 10) 1023) = hi
    /\ N.lor 56320 (N.land (c - 65536) 1023) = lo
    /\ hi < 65536 /\ lo < 65536
    /\ is_high_surrogate hi = true /\ is_low_surrogate hi = false
    /\ is_low_surrogate lo = true
    /\ join_surrogates hi lo = c.
Proof.
  intros Hlo Hhi.
  destruct (surrogate_halves c Hlo Hhi) as [-> ->].
  pose proof (join_surrogates_halves c Hlo Hhi) as Hjoin.
  assert (Hq : (c - 65536) / 1024 < 1024).
  { apply N.Div0.div_lt_upper_bound. lia. }
  assert (Hr : (c - 65536) mod 1024 < 1024) by (apply N.mod_upper_bound; lia).
  revert Hjoin Hq Hr.
  generalize ((c - 65536) / 1024) as q, ((c - 65536) mod 1024) as r.
  intros q r Hjoin Hq Hr.
  exists (55296 + q), (56320 + r).
  unfold is_high_surrogate, is_low_surrogate.
  repeat split; try done; lia.
Qed.

(** An encoded character that is not a low surrogate does not look
    like the second half of a pair. *)
Lemma encode_char_ahead c tail :
  is_code_point c = true -> is_low_surrogate c = false ->
  low_escape_ahead (encode_char c ++ tail) = false.
Proof.
  intros Hc Hlow. unfold encode_char.
  repeat (case_match; [by apply short_escape_ahead|]).
  case_match.
  { apply no_escape_ahead. unfold BACKSLASH in *. lia. }
  case_match.
  - rewrite escape_u_ahead by lia. exact Hlow.
  - destruct (halves_are_surrogates c) as (hi & lo & -> & -> & Hhi & _ & _ & Hnl & _);
      [lia|unfold is_code_point in Hc; lia|].
    rewrite <- app_assoc, escape_u_ahead by done. exact Hnl.
Qed.

(** An escaped code unit that no low surrogate follows is read alone. *)
Lemma scanstring_escape_alone v tail :
  v < 65536 ->
  (is_high_surrogate v = true -> low_escape_ahead tail = false) ->
  scanstring (escape_u v ++ tail) = cons_fst v (scanstring tail).
Proof.
  intros Hv Hahead. unfold escape_u. cbn [app].
  destruct (hex4_value_hex4 v tail) as (h1 & h2 & h3 & h4 & Hshape & Hval);
    [done|].
  rewrite Hshape, scanstring_escape_u, Hval.
  destruct (is_high_surrogate v); [|reflexivity].
  specialize (Hahead eq_refl).
  destruct tail as [|b [|e' [|l1 [|l2 [|l3 [|l4 s4]]]]]]; try reflexivity.
  cbn [low_escape_ahead] in Hahead.
  destruct ((b =? BACKSLASH) && (e' =? 117)); [|reflexivity].
  destruct (hex4_value l1 l2 l3 l4); [|done].
  cbn in Hahead. by rewrite Hahead.
Qed.

(** Reading back one encoded character. *)
Lemma scanstring_encode_char c tail :
  is_code_point c = true ->
  (is_high_surrogate c = true -> low_escape_ahead tail = false) ->
  scanstring (encode_char c ++ tail) = cons_fst c (scanstring tail).
Proof.
  intros Hc Hahead. unfold encode_char.
  destruct (c =? QUOTE) eqn:E1; [apply N.eqb_eq in E1 as ->; reflexivity|].
  destruct (c =? BACKSLASH) eqn:E2; [apply N.eqb_eq in E2 as ->; reflexivity|].
  destruct (c =? 10) eqn:E3; [apply N.eqb_eq in E3 as ->; reflexivity|].
  destruct (c =? 13) eqn:E4; [apply N.eqb_eq in E4 as ->; reflexivity|].
  destruct (c =? 9) eqn:E5; [apply N.eqb_eq in E5 as ->; reflexivity|].
  destruct (c =? 8) eqn:E6; [apply N.eqb_eq in E6 as ->; reflexivity|].
  destruct (c =? 12) eqn:E7; [apply N.eqb_eq in E7 as ->; reflexivity|].
  destruct ((32 <=? c) && (c <=? 126)) eqn:E8.
  { cbn [app scanstring]. rewrite E1, E2.
    replace (c <? 32) with false by lia. reflexivity. }
  destruct (c <? 65536) eqn:E9.
  - apply scanstring_escape_alone; [lia|done].
  - destruct (halves_are_surrogates c)
      as (hi & lo & -> & -> & Hhi & Hlo & Hhs & _ & Hls & Hjoin);
      [lia|unfold is_code_point in Hc; lia|].
    unfold escape_u. rewrite <- app_assoc. cbn [app].
    destruct (hex4_value_hex4 hi (BACKSLASH :: 117 :: hex4 lo ++ tail))
      as (h1 & h2 & h3 & h4 & Hshape & Hval); [done|].
    rewrite Hshape, scanstring_escape_u, Hval, Hhs.
    destruct (hex4_value_hex4 lo tail)
      as (l1 & l2 & l3 & l4 & Hshape' & Hval'); [done|].
    rewrite Hshape'. cbn [andb N.eqb]. rewrite !N.eqb_refl. cbn [andb].
    by rewrite Hval', Hls, Hjoin.
Qed.

(** Reading back an encoded string, up to its closing quote. *)
Lemma scanstring_encode s tail :
  plain_text s = true ->
  scanstring (flat_map encode_char s ++ QUOTE :: tail) = Some (s, tail).
Proof.
  unfold plain_text. induction s as [|c s IH]; intros Hs; [reflexivity|].
  cbn [forallb no_split_pair] in Hs.
  apply andb_prop in Hs as [[Hc Hs]%andb_prop [Hpair Hnsp]%andb_prop].
  cbn [flat_map]. rewrite <- app_assoc, scanstring_encode_char.
  - rewrite IH; [reflexivity|]. by rewrite Hs, Hnsp.
  - exact Hc.
  - intros Hhigh. destruct s as [|d s].
    + by apply no_escape_ahead.
    + cbn [flat_map]. rewrite <- app_assoc. apply encode_char_ahead.
      * cbn in Hs. by apply andb_prop in Hs as [Hd _].
      * rewrite Hhigh in Hpair. cbn in Hpair. by apply negb_true_iff.
Qed.

Lemma encode_string_shape x tail :
  encode_string x ++ tail = QUOTE :: flat_map encode_char x ++ QUOTE :: tail.
Proof. unfold encode_string. cbn. by rewrite <- app_assoc. Qed.

Lemma join_items_shape x l tail :
  exists body,
    join_items (map encode_string (x :: l)) ++ tail = QUOTE :: body.
Proof.
  destruct l as [|y l]; cbn [map join_items].
  - rewrite encode_string_shape. by eexists.
  - rewrite <- app_assoc, encode_string_shape. by eexists.
Qed.

Lemma join_items_two x y l :
  join_items (map encode_string (x :: y :: l)) =
  encode_string x ++ [44; 32] ++ join_items (map encode_string (y :: l)).
Proof. reflexivity. Qed.

(** Reading back the items of an encoded list that is not empty. *)
Lemma parse_items_join l :
  forall x rest fuel,
    forallb plain_text (x :: l) = true ->
    (length (x :: l) <= fuel)%nat ->
    parse_items fuel (join_items (map encode_string (x :: l)) ++ 93 :: rest)
    = Some (x :: l, rest).
Proof.
  induction l as [|y l IH]; intros x rest fuel Hs Hfuel;
    (destruct fuel as [|fuel]; [cbn in Hfuel; lia|]);
    cbn [forallb] in Hs; apply andb_prop in Hs as [Hx Hs].
  - cbn [map join_items]. rewrite encode_string_shape.
    cbn [parse_items]. rewrite N.eqb_refl, scanstring_encode by done.
    reflexivity.
  - rewrite join_items_two, <- !app_assoc, encode_string_shape.
    cbn [parse_items]. rewrite N.eqb_refl, scanstring_encode by done.
    cbn [app skip_ws ws N.eqb orb Pos.eqb].
    destruct (join_items_shape y l (93 :: rest)) as [body Hbody].
    pose proof (IH y rest fuel Hs ltac:(cbn in *; lia)) as Hrec.
    rewrite Hbody in *. cbn [skip_ws ws QUOTE N.eqb orb Pos.eqb].
    by rewrite Hrec.
Qed.

Lemma length_join_items l :
  (length l <= length (join_items (map encode_string l)))%nat.
Proof.
  induction l as [|x [|y l] IH]; cbn [map join_items length] in *; [lia| |].
  - unfold encode_string. cbn. lia.
  - rewrite !length_app. unfold encode_string at 1. cbn [length]. lia.
Qed.

(** [json.loads(json.dumps(v)) == v] on text without a split pair. *)
Lemma loads_dumps v : plain_field v = true -> loads (dumps v) = Some v.
Proof.
  destruct v as [|s|l]; cbn [plain_field dumps]; intros Hs.
  - reflexivity.
  - unfold loads, encode_string. cbn [skip_ws ws QUOTE N.eqb orb Pos.eqb].
    unfold parse_value. rewrite N.eqb_refl.
    by rewrite scanstring_encode.
  - change (u "[") with [91]. change (u "]") with [93]. cbn [app].
    unfold loads. cbn [skip_ws ws N.eqb orb Pos.eqb].
    unfold parse_value. cbn [N.eqb QUOTE Pos.eqb].
    destruct l as [|x l]; [reflexivity|].
    destruct (join_items_shape x l [93]) as [body Hbody].
    pose proof (parse_items_join l x [] (length (join_items (map encode_string (x :: l)) ++ [93])) Hs) as Hitems.
    rewrite Hbody in *. cbn [skip_ws ws QUOTE N.eqb orb Pos.eqb].
    rewrite Hitems; [reflexivity|].
    rewrite <- Hbody, length_app.
    pose proof (length_join_items (x :: l)). lia.
Qed.

(** A surrogate on its own comes back as it was; a high one directly
    before a low one comes back as the character of the pair. *)
Example lone_surrogates_come_back :
  loads (dumps (FList [[55357]; [56832; 55357; 65]]))
  = Some (FList [[55357]; [56832; 55357; 65]]).
Proof. by apply loads_dumps. Qed.

Example split_pair_comes_back_joined :
  loads (dumps (FStr [55357; 56832])) = Some (FStr [128512]).
Proof. reflexivity. Qed.

End JsonFacts.

(** ** The profile table *)

Section DatabaseFacts.
Import Database.

Lemma find_map_same {A} (P : A -> bool) (f : A -> A) (l : list A) :
  (forall a, P (f a) = P a) -> find P (map f l) = f <$> find P l.
Proof.
  intros HP. induction l as [|a l IH]; [done|]. cbn.
  rewrite HP. by destruct (P a).
Qed.

Lemma find_snoc_none {A} (P : A -> bool) (l : list A) (x : A) :
  find P l = None -> find P (l ++ [x]) = if P x then Some x else None.
Proof.
  induction l as [|a l IH]; [done|]. cbn.
  destruct (P a); [done|]. exact IH.
Qed.

Lemma sql_eq_text s t : sql_eq (TEXT s) (TEXT t) = true <-> s = t.
Proof. cbn. by rewrite bool_decide_eq_true. Qed.

(** A bound string is stored as it is. *)
Lemma bind_param_str s v : bind_param (FStr s) = Some v -> v = TEXT s.
Proof. cbn. by case_match; intros [= <-]. Qed.

(** What ends up in the timezone column reads back as what was given,
    ["UTC"] when nothing was. *)
Lemma bind_param_read_back v x : bind_param v = Some x -> of_sql x = v.
Proof.
  destruct v as [|s|l]; cbn; [by intros [= <-]| |done].
  by case_match; intros [= <-].
Qed.

(** What a save that commits has gone through. *)
Lemma save_attempt_inv now db p db' :
  save_attempt now db p = Some db' ->
  exists v uid nm nm' em em' tz',
    p !! "user_id" = Some v /\ bind_param v = Some uid
    /\ p !! "name" = Some nm /\ bind_param nm = Some nm'
    /\ p !! "email" = Some em /\ bind_param em = Some em'
    /\ bind_param (default (FStr (u "UTC")) (p !! "timezone")) = Some tz'
    /\ match select_by_user_id db uid with
       | Some _ =>
           sql_update now db nm' em' tz'
             (TEXT (dumps (default (FList []) (p !! "preferred_notification_times"))))
             (TEXT (dumps (default (FList []) (p !! "content_preferences"))))
             uid
       | None =>
           sql_insert now db uid nm' em' tz'
             (TEXT (dumps (default (FList []) (p !! "preferred_notification_times"))))
             (TEXT (dumps (default (FList []) (p !! "content_preferences"))))
       end = Some db'.
Proof.
  unfold save_attempt.
  destruct (p !! "user_id") as [v|]; [|done]. cbn [mbind option_bind].
  destruct (bind_param v) as [uid|] eqn:Hbind; [|done].
  cbn [mbind option_bind bind_param].
  destruct (utf8_encodable (dumps (default (FList []) (p !! "preferred_notification_times"))));
    [|done].
  destruct (utf8_encodable (dumps (default (FList []) (p !! "content_preferences"))));
    [|done].
  cbn [mbind option_bind].
  destruct (p !! "name") as [nm|]; [|by destruct (select_by_user_id _ _)].
  destruct (p !! "email") as [em|];
    [|by destruct (select_by_user_id _ _); cbn; destruct (bind_param nm)].
  cbn [mbind option_bind].
  destruct (bind_param nm) as [nm'|] eqn:Hnm;
    [|by destruct (select_by_user_id _ _)].
  destruct (bind_param em) as [em'|] eqn:Hem;
    [|by destruct (select_by_user_id _ _)].
  destruct (bind_param (default (FStr (u "UTC")) (p !! "timezone"))) as [tz'|] eqn:Htz;
    [|by destruct (select_by_user_id _ _)].
  cbn [mbind option_bind]. intros Hdb.
  exists v, uid, nm, nm', em, em', tz'.
  repeat (split; [done|]). exact Hdb.
Qed.

(** The row a successful save leaves under the saved identifier. *)
Lemma save_attempt_row now db p db' uid :
  p !! "user_id" = Some (FStr uid) ->
  save_attempt now db p = Some db' ->
  exists r,
    select_by_user_id db' (TEXT uid) = Some r
    /\ utf8_encodable uid = true
    /\ Some (of_sql (name r)) = p !! "name"
    /\ Some (of_sql (email r)) = p !! "email"
    /\ of_sql (timezone r) = default (FStr (u "UTC")) (p !! "timezone")
    /\ preferred_notification_times r =
       TEXT (dumps (default (FList []) (p !! "preferred_notification_times")))
    /\ content_preferences r =
       TEXT (dumps (default (FList []) (p !! "content_preferences"))).
Proof.
  intros Huid Hsave.
  apply save_attempt_inv in Hsave
    as (v & uid' & nm & nm' & em & em' & tz' & Hv & Hbind & Hnm & Hnm' & Hem & Hem'
        & Htz & Hdb).
  rewrite Huid in Hv. injection Hv as <-.
  assert (Henc : utf8_encodable uid = true).
  { cbn in Hbind. by destruct (utf8_encodable uid). }
  apply bind_param_str in Hbind as ->.
  apply bind_param_read_back in Hnm', Hem', Htz.
  rewrite Hnm, Hem, <- Hnm', <- Hem', <- Htz.
  destruct (select_by_user_id db (TEXT uid)) as [r0|] eqn:Hsel.
  - unfold sql_update in Hdb. case_match; [|done]. injection Hdb as <-.
    unfold select_by_user_id in *.
    rewrite find_map_same, Hsel
      by (intros a; cbn beta; by destruct (sql_eq (user_id a) (TEXT uid)) eqn:E).
    cbn [fmap option_fmap option_map].
    apply find_some in Hsel as [_ Hmatch]. rewrite Hmatch.
    eexists. split; [reflexivity|]. by cbn.
  - unfold sql_insert in Hdb. case_match; [|done]. injection Hdb as <-.
    unfold select_by_user_id in *.
    rewrite find_snoc_none by done. cbn [user_id].
    rewrite (proj2 (sql_eq_text uid uid) eq_refl).
    eexists. split; [reflexivity|]. by cbn.
Qed.

(** A save under another identifier leaves an unknown identifier
    unknown. *)
Lemma save_keeps_unknown now db p uid :
  p !! "user_id" <> Some (FStr uid) ->
  select_by_user_id db (TEXT uid) = None ->
  select_by_user_id (save_user_profile now db p).2 (TEXT uid) = None.
Proof.
  intros Hne Hsel. unfold save_user_profile.
  destruct (save_attempt now db p) as [db'|] eqn:Hsave; [|done]. cbn.
  apply save_attempt_inv in Hsave
    as (v & uid' & nm & nm' & em & em' & tz' & Hv & Hbind & _ & _ & _ & _ & _ & Hdb).
  assert (Hdiff : sql_eq uid' (TEXT uid) = false).
  { destruct uid' as [|s]; [done|]. apply not_true_is_false.
    intros ->%sql_eq_text. apply Hne. rewrite Hv. f_equal.
    apply bind_param_read_back in Hbind. by rewrite <- Hbind. }
  destruct (select_by_user_id db uid').
  - unfold sql_update in Hdb. case_match; [|done]. injection Hdb as <-.
    unfold select_by_user_id in *.
    rewrite find_map_same, Hsel; [done|].
    intros a. cbn beta. by destruct (sql_eq (user_id a) uid') eqn:E.
  - unfold sql_insert in Hdb. case_match; [|done]. injection Hdb as <-.
    unfold select_by_user_id in *.
    rewrite find_snoc_none by done. cbn [user_id]. by rewrite Hdiff.
Qed.

Lemma saves_keep_unknown ps : forall db uid,
  (forall now p, (now, p) ∈ ps -> p !! "user_id" <> Some (FStr uid)) ->
  select_by_user_id db (TEXT uid) = None ->
  select_by_user_id (saves db ps) (TEXT uid) = None.
Proof.
  induction ps as [|[now p] ps IH]; intros db uid Hps Hsel; [done|].
  cbn [saves]. apply IH.
  - intros now' p' Hin. apply (Hps now' p'). by apply list_elem_of_further.
  - apply save_keeps_unknown; [|done]. apply (Hps now p), list_elem_of_here.
Qed.

Lemma get_user_profile_unknown db uid :
  select_by_user_id db (TEXT uid) = None -> get_user_profile db uid = None.
Proof.
  intros Hsel. unfold get_user_profile. cbn [bind_param].
  destruct (utf8_encodable uid); [|done]. cbn. by rewrite Hsel.
Qed.

End DatabaseFacts.

(** Claim C9. Whatever [user_profile] the caller passes to
    [retriv_run_agent], the events and the outcome are the same, and a
    call to the accountant carries the built-in guest profile: user
    [default_guest], tier [standard], limit 0.1. *)
Theorem payment_ignores_caller_profile (w : world) (context : str)
    (p1 p2 : option (gmap string pyval)) :
  Retriv.retriv_run_agent w context p1 = Retriv.retriv_run_agent w context p2
  /\ (forall payment profile,
        EvAccountant payment profile ∈ (Retriv.retriv_run_agent w context p1).1 ->
        profile = Retriv.default_profile)
  /\ Retriv.default_profile !! "user_id" = Some (PStr (u "default_guest"))
  /\ Retriv.default_profile !! "tier" = Some (PStr (u "standard"))
  /\ Retriv.default_profile !! "custom_budget_limit" = Some (PNum (1 # 10)).
Proof.
  split; [by rewrite !retriv_run_agent_eq|].
  split; [|by vm_compute].
  intros payment profile. rewrite retriv_run_agent_eq.
  repeat case_match; cbn; intros Hin;
    repeat (apply elem_of_cons in Hin as [Hin|Hin]; [congruence|]);
    by apply elem_of_nil in Hin.
Qed.

(** When the handler is entered: exactly when the answer of the agent
    has something else than white space, marker or not. *)
Lemma payment_entered_iff (w : world) (context : str)
    (p : option (gmap string pyval)) (agent_response : str) :
  chat_openai w = Ok tt -> get_tools w = Ok tt ->
  ainvoke w (Retriv.user_input context) = Ok agent_response ->
  (exists e, e ∈ (Retriv.retriv_run_agent w context p).1 /\ Trace.is_submit e = true)
  <-> strip agent_response <> [].
Proof.
  intros H1 H2 H3. rewrite retriv_run_agent_eq, H1, H2, H3.
  destruct (strip agent_response) as [|c s] eqn:E; cbn.
  - split; [|done]. intros (e & Hin & He).
    repeat (apply elem_of_cons in Hin as [->|Hin]; [done|]).
    by apply elem_of_nil in Hin.
  - split; [done|]. intros _.
    exists (EvAccountant (PVal (PStr (c :: s))) Retriv.default_profile).
    split; [set_solver|reflexivity].
Qed.

(** Claim C3, at the input where the code departs from it: the agent
    answers with ordinary news, no payment marker in it, and [run] hands
    the text to the accountant as payment data; the caller gets the
    accountant's answer in place of the news. *)
Theorem ordinary_content_enters_payment :
  Scenario.is_payment_challenge Scenario.news = false
  /\ Retriv.retriv_run_agent Scenario.calm (u "Apple") None =
     ([EvChatOpenAI; EvGetTools; EvInvoke (Retriv.user_input (u "Apple"));
       EvAccountant (PVal (PStr Scenario.news)) Retriv.default_profile;
       EvDisconnect],
      Ok (u "PAYMENT_SUCCESSFUL: 5Kx9abc")).
Proof. split; by vm_compute. Qed.

(** Claim C2, refuted as stated: there is a world in which
    [retriv_run_agent] returns no value at all. *)
Lemma retriv_run_agent_can_raise :
  ~ (forall w context p, exists s, (Retriv.retriv_run_agent w context p).2 = Ok s).
Proof.
  intros H. destruct (H Scenario.offline (u "Apple") None) as [s Hs].
  vm_compute in Hs. discriminate.
Qed.

(** Claim C2, amended. [retriv_run_agent] has no [except]: its outcome
    is the string of [run] when nothing below raises, and otherwise the
    exception of the first collaborator that raised, unchanged. Once the
    agent object exists, the MCP client is disconnected before either
    leaves the function, and a failure of the disconnection is dropped. *)
Theorem retriv_run_agent_outcome (w : world) (context : str)
    (p : option (gmap string pyval)) :
  (Retriv.retriv_run_agent w context p).2 =
    match chat_openai w, get_tools w, ainvoke w (Retriv.user_input context) with
    | Raise e, _, _ => Raise e
    | Ok _, Raise e, _ => Raise e
    | Ok _, Ok _, Raise e => Raise e
    | Ok _, Ok _, Ok agent_response =>
        if truthy (strip agent_response)
        then run_accountant_service w (PVal (PStr (strip agent_response)))
               Retriv.default_profile
        else Ok agent_response
    end
  /\ (last (Retriv.retriv_run_agent w context p).1 = Some EvDisconnect
      <-> exists x, chat_openai w = Ok x).
Proof.
  rewrite retriv_run_agent_eq.
  destruct (chat_openai w) as [[]|e1], (get_tools w) as [[]|e2],
    (ainvoke w (Retriv.user_input context)) as [resp|e3];
    try destruct (truthy (strip resp)); cbn;
    (split; [reflexivity|]);
    split; try done; try by eexists.
  all: by intros [x Hx].
Qed.

(** ** The accountant test of main.py *)

Section TraceFacts.
Import Trace.

Lemma precedes_from_sound P Q t :
  forall seen, precedes_from P Q seen t = true ->
  forall t1 e t2, t = t1 ++ e :: t2 -> Q e = true ->
    seen = true \/ exists e', e' ∈ t1 /\ P e' = true.
Proof.
  induction t as [|a t IH]; intros seen Hscan t1 e t2 Heq HQ.
  - by destruct t1.
  - cbn in Hscan. apply andb_prop in Hscan as [Ha Hrest].
    destruct t1 as [|b t1]; cbn in Heq; injection Heq as -> ->.
    + rewrite HQ in Ha. cbn in Ha. by left.
    + destruct (IH _ Hrest t1 e t2 eq_refl HQ) as [Hseen|(e' & Hin & HP)].
      * apply orb_prop in Hseen as [->|HPb]; [by left|].
        right. exists b. split; [apply list_elem_of_here|done].
      * right. exists e'. split; [by apply list_elem_of_further|done].
Qed.

Lemma precedes_check P Q t :
  precedes_from P Q false t = true -> precedes P Q t.
Proof.
  intros Hscan t1 e t2 Heq HQ.
  by destruct (precedes_from_sound P Q t false Hscan t1 e t2 Heq HQ).
Qed.

End TraceFacts.

Section MainFacts.
Import Main Trace Outcome.

(** Symbolic run of [test_accountant_agent]: one goal per path. *)
Ltac split_goal :=
  match goal with
  | |- context [match ?x with _ => _ end] =>
      lazymatch x with
      | context [match _ with _ => _ end] => fail
      | _ => destruct x eqn:?
      end
  end.

Ltac run_main :=
  unfold test_accountant_agent, body, except_connection_error,
    redeem_and_report, requests_get, sleep,
    try_finally, bind, call, call_pure, ret in *;
  cbn;
  repeat (split_goal; cbn; try done).

Ltac in_trace H :=
  repeat (apply elem_of_cons in H as [H|H]; [simplify_eq/=|]);
  try (by apply elem_of_nil in H).

(** What is matched is letters and digits, and not empty. *)
Lemma take_alnum_alnum s : forallb alnum (take_alnum s) = true.
Proof.
  induction s as [|c s IH]; [done|]. cbn.
  destruct (alnum c) eqn:E; [|done]. cbn. by rewrite E.
Qed.

Lemma match_here_alnum s h :
  match_here s = Some h -> forallb alnum h = true /\ h <> [].
Proof.
  unfold match_here. repeat case_match; try done.
  intros [= <-]. split; [apply take_alnum_alnum|].
  by destruct (take_alnum _).
Qed.

Lemma re_search_alnum s h :
  re_search s = Some h -> forallb alnum h = true /\ h <> [].
Proof.
  induction s as [|c s IH]; cbn.
  - destruct (match_here []) eqn:E; [|done].
    intros [= <-]. by apply match_here_alnum in E.
  - destruct (match_here (c :: s)) eqn:E.
    + intros [= <-]. by apply match_here_alnum in E.
    + apply IH.
Qed.

Lemma alnum_not_space c : alnum c = true -> isspace c = false.
Proof. unfold alnum, isspace. lia. Qed.

Lemma lstrip_alnum h : forallb alnum h = true -> lstrip h = h.
Proof.
  destruct h as [|c h]; [done|]. cbn. intros [Hc _]%andb_prop.
  by rewrite (alnum_not_space c Hc).
Qed.

(** [strip] leaves a matched hash as it is. *)
Lemma strip_alnum h : forallb alnum h = true -> strip h = h.
Proof.
  intros Hh. unfold strip, rstrip. rewrite (lstrip_alnum h Hh).
  rewrite lstrip_alnum; [apply rev_involutive|].
  apply forallb_forall. intros c Hc. apply in_rev in Hc.
  by apply (proj1 (forallb_forall _ _) Hh).
Qed.


(** Claim C5. In every run of [test_accountant_agent] the accountant
    call (the settlement) comes before the wait for confirmation, and
    the wait before the request that redeems; when the accountant call
    raises or its answer carries no [PAYMENT_SUCCESSFUL: <hash>], no
    request with a credential is made at all. *)
Theorem submit_wait_redeem_order (w : world) :
  precedes is_submit is_wait (test_accountant_agent w).1
  /\ precedes is_wait is_redeem (test_accountant_agent w).1
  /\ ((forall payment,
         EvAccountant payment vip_profile ∈ (test_accountant_agent w).1 ->
         reported_hash (run_accountant_service w payment vip_profile) = None) ->
      forall e, e ∈ (test_accountant_agent w).1 -> is_redeem e = false).
Proof.
  split; [|split].
  - apply precedes_check. run_main.
  - apply precedes_check. run_main.
  - intros Hnone e He.
    destruct (is_redeem e) eqn:Hred; [exfalso|done].
    revert Hnone He. run_main; intros Hnone He; in_trace He.
    all: match goal with
         | Hacc : run_accountant_service _ ?p _ = Ok ?res |- _ =>
             specialize (Hnone p); rewrite Hacc in Hnone; cbn in Hnone
         end.
    all: match type of Hnone with
         | ?A -> _ => assert (Hin : A) by set_solver; specialize (Hnone Hin)
         end.
    all: match goal with
         | Hc : contains _ _ = true |- _ => rewrite Hc in Hnone
         end; congruence.
Qed.

Lemma submit_wait_redeem_order_witness :
  forallb (fun e => negb (is_redeem e))
    (test_accountant_agent Scenario.failed_settlement).1 = true.
Proof.
  apply forallb_forall. intros e He. apply negb_true_iff.
  apply (proj2 (proj2 (submit_wait_redeem_order Scenario.failed_settlement))).
  - intros payment _. reflexivity.
  - by apply list_elem_of_In.
Defined.





(** Claim C4, refuted as stated. A 402 body that is the empty object
    has none of the four fields; it is decoded without error and handed
    to the accountant as it is. *)
Lemma challenge_without_fields_is_forwarded :
  Scenario.required_fields_present (PDict ∅) = false
  /\ test_accountant_agent Scenario.empty_challenge =
     ([EvStartMCP "tool_pay.py"; EvGet server_url [];
       EvAccountant (PDict ∅) vip_profile; EvTerminate],
      Ok NotExecuted).
Proof. split; by vm_compute. Qed.

(** Claim C4, amended. The body of a 402 answer is decoded by
    [resp.json()] and by nothing else. When that raises, the exception
    leaves the function and the accountant is not called. When it
    returns, its value is the payment data of the one accountant call,
    unchanged, whichever fields it has or lacks. *)
Theorem challenge_decode_is_json_only (w : world) (b : bool) (h1 : handler)
    (srv : list handler) (resp : response) :
  ensure_mcp_server_running w "tool_pay.py" = Ok b ->
  content_server w = h1 :: srv ->
  h1 server_url [] = Ok resp ->
  status_code resp = 402%Z ->
  (forall e, json resp = Raise e ->
     (test_accountant_agent w).2 = Raise e
     /\ filter is_submit (test_accountant_agent w).1 = [])
  /\ (forall payload, json resp = Ok payload ->
     filter is_submit (test_accountant_agent w).1 =
       [EvAccountant payload vip_profile]).
Proof.
  intros Hmcp Hsrv Hh1 H402.
  unfold test_accountant_agent, body, except_connection_error,
    redeem_and_report, requests_get, sleep,
    try_finally, bind, call, call_pure, ret.
  rewrite Hmcp, Hsrv, Hh1, H402. cbn. split.
  - intros e ->. by destruct b.
  - intros payload ->. cbn. repeat (split_goal; cbn; try done).
Qed.

Lemma challenge_decode_is_json_only_witness :
  filter is_submit (test_accountant_agent Scenario.empty_challenge).1 =
    [EvAccountant (PDict ∅) vip_profile].
Proof.
  apply (proj2 (challenge_decode_is_json_only Scenario.empty_challenge true
                  (Scenario.payment_required ∅) [Scenario.paid_content]
                  {| status_code := 402; text := u "payment required";
                     json := Ok (PDict ∅) |}
                  eq_refl eq_refl eq_refl eq_refl)).
  reflexivity.
Defined.

End MainFacts.

Section SettlementFacts.
Import Main Trace Outcome Settlement.

Lemma startswith_app p s : startswith p (p ++ s) = true.
Proof. induction p as [|a p IH]; [done|]. cbn. by rewrite N.eqb_refl. Qed.

Lemma contains_here needle hay :
  startswith needle hay = true -> contains needle hay = true.
Proof. intros H. destruct hay; cbn [contains]; by rewrite H. Qed.

Lemma contains_app needle before rest :
  contains needle (before ++ needle ++ rest) = true.
Proof.
  induction before as [|c before IH].
  - cbn [app]. apply contains_here, startswith_app.
  - cbn [app contains]. rewrite IH. apply orb_true_r.
Qed.

Lemma lstrip_spaces ws s :
  forallb isspace ws = true ->
  match s with [] => True | c :: _ => isspace c = false end ->
  lstrip (ws ++ s) = s.
Proof.
  intros Hws Hs. induction ws as [|c ws IH]; cbn.
  - destruct s as [|c s]; [done|]. cbn. by rewrite Hs.
  - cbn in Hws. apply andb_prop in Hws as [-> Hws]. by apply IH.
Qed.

Lemma take_alnum_app tx rest :
  forallb alnum tx = true -> ends_reference rest = true ->
  take_alnum (tx ++ rest) = tx.
Proof.
  intros Htx Hrest. induction tx as [|c tx IH]; cbn.
  - destruct rest as [|c rest]; [done|]. cbn in *.
    by destruct (alnum c).
  - cbn in Htx. apply andb_prop in Htx as [-> Htx]. by rewrite IH.
Qed.

(** The pattern at the marker itself. *)
Lemma match_here_report ws tx rest :
  forallb isspace ws = true -> tx <> [] -> forallb alnum tx = true ->
  ends_reference rest = true ->
  match_here (marker ++ ws ++ tx ++ rest) = Some tx.
Proof.
  intros Hws Hne Htx Hrest. unfold match_here. fold marker.
  rewrite startswith_app, drop_app_length.
  rewrite lstrip_spaces; [|done|].
  - rewrite take_alnum_app by done. by destruct tx.
  - destruct tx as [|c tx]; [done|]. cbn in *.
    apply andb_prop in Htx as [Hc _]. by apply alnum_not_space.
Qed.

Lemma match_here_unmarked s : startswith marker s = false -> match_here s = None.
Proof. intros H. unfold match_here. fold marker. by rewrite H. Qed.

(** The search finds the reference of a report whole. *)
Lemma re_search_report before ws tx rest :
  marker_free (length before) (report before ws tx rest) = true ->
  forallb isspace ws = true -> tx <> [] -> forallb alnum tx = true ->
  ends_reference rest = true ->
  re_search (report before ws tx rest) = Some tx.
Proof.
  intros Hfree Hws Hne Htx Hrest. unfold report in *.
  induction before as [|c before IH].
  - cbn [app]. pose proof (match_here_report ws tx rest Hws Hne Htx Hrest) as Hm.
    destruct (marker ++ ws ++ tx ++ rest); cbn; by rewrite Hm.
  - cbn [app length marker_free] in Hfree.
    apply andb_prop in Hfree as [Hc Hfree]. apply negb_true_iff in Hc.
    cbn [app re_search]. rewrite (match_here_unmarked _ Hc). by apply IH.
Qed.

Lemma reported_hash_report before ws tx rest :
  marker_free (length before) (report before ws tx rest) = true ->
  forallb isspace ws = true -> tx <> [] -> forallb alnum tx = true ->
  ends_reference rest = true ->
  reported_hash (Ok (report before ws tx rest)) = Some tx.
Proof.
  intros. cbn [reported_hash].
  assert (Hc : contains PAYMENT_SUCCESSFUL (report before ws tx rest) = true).
  { unfold report, marker. rewrite <- (app_assoc PAYMENT_SUCCESSFUL).
    apply contains_app. }
  rewrite Hc. by apply re_search_report.
Qed.

(** Claim C7, refuted as stated. A redemption answered with status 200
    and a body that is not JSON gives no content: the exception of
    [json()] leaves the function, after the payment. And a reference
    that is not made of letters and digits alone is not what is sent:
    of [5Kx9-abc] the credential carries [5Kx9]. *)
Lemma undecodable_content_is_not_served :
  (test_accountant_agent Settlement.html_content).2 = Raise JSONDecodeError
  /\ filter is_redeem (test_accountant_agent Settlement.html_content).1
     = [EvGet server_url [("Authorization"%string, u "Bearer " ++ u "5Kx9abc")]]
  /\ filter is_redeem (test_accountant_agent Settlement.hyphenated).1
     = [EvGet server_url [("Authorization"%string, u "Bearer " ++ u "5Kx9")]].
Proof. repeat split; by vm_compute. Qed.

(** Claim C7, amended. When the accountant reports a settlement as
    [PAYMENT_SUCCESSFUL:], white space, and a reference made of letters
    and digits, this being the first place of its answer where the
    marker stands, the request is made a second time: to the URL of the
    first request, with the header [Authorization: Bearer <reference>].
    An answer with status 200 gives its content when the body decodes
    as JSON, and the exception of the decoding when it does not; any
    other status gives a failed verification with the text of the
    answer. *)
Theorem redeem_carries_bearer_hash (w : world) (b : bool) (h1 : handler)
    (srv : list handler) (resp : response) (bill : pyobj)
    (before ws tx rest : str) :
  ensure_mcp_server_running w "tool_pay.py" = Ok b ->
  content_server w = h1 :: srv ->
  h1 server_url [] = Ok resp ->
  status_code resp = 402%Z ->
  json resp = Ok bill ->
  run_accountant_service w bill vip_profile = Ok (report before ws tx rest) ->
  marker_free (length before) (report before ws tx rest) = true ->
  forallb isspace ws = true ->
  tx <> [] ->
  forallb alnum tx = true ->
  ends_reference rest = true ->
  filter is_get (test_accountant_agent w).1 =
    [EvGet server_url [];
     EvGet server_url [("Authorization"%string, u "Bearer " ++ tx)]]
  /\ forall h2 later final,
       srv = h2 :: later ->
       h2 server_url [("Authorization"%string, u "Bearer " ++ tx)] = Ok final ->
       (status_code final = 200%Z ->
          (test_accountant_agent w).2 =
          match json final with
          | Ok content => Ok (ContentRetrieved content)
          | Raise e => Raise e
          end)
       /\ (status_code final <> 200%Z ->
          (test_accountant_agent w).2 = Ok (VerificationFailed (text final))).
Proof.
  intros Hmcp Hsrv Hh1 H402 Hjson Hacc Hfree Hws Hne Hal Hrest.
  pose proof (reported_hash_report _ _ _ _ Hfree Hws Hne Hal Hrest) as Hhash.
  cbn [reported_hash] in Hhash.
  destruct (contains PAYMENT_SUCCESSFUL (report before ws tx rest)) eqn:Hc;
    [|done].
  unfold test_accountant_agent, body, except_connection_error,
    redeem_and_report, requests_get, sleep,
    try_finally, bind, call, call_pure, ret.
  rewrite Hmcp, Hsrv, Hh1, H402, Hjson, Hacc, Hc, Hhash, (strip_alnum _ Hal).
  cbn. split.
  - destruct srv as [|h2 later]; [by destruct b|].
    destruct (h2 _ _) as [final|e]; [|by destruct b].
    destruct (status_code final =? 200)%Z; [|by destruct b].
    destruct (json final); by destruct b.
  - intros h2 later final -> Hh2. rewrite Hh2. split.
    + intros ->. cbn. destruct (json final); by destruct b.
    + intros Hne'. apply Z.eqb_neq in Hne'. rewrite Hne'. by destruct b.
Qed.

Lemma redeem_carries_bearer_hash_witness :
  filter is_get (test_accountant_agent Settlement.wordy).1 =
    [EvGet server_url [];
     EvGet server_url [("Authorization"%string, u "Bearer " ++ u "5Kx9abc")]].
Proof.
  apply (redeem_carries_bearer_hash Settlement.wordy true
           (Scenario.payment_required Scenario.challenge)
           [Scenario.paid_content]
           {| status_code := 402; text := u "payment required";
              json := Ok (PDict Scenario.challenge) |}
           (PDict Scenario.challenge)
           (u "Payment went through. ") (u " ") (u "5Kx9abc")
           (u ". Content follows."));
    first [reflexivity | by vm_compute].
Defined.

End SettlementFacts.

Section DatabaseClaims.
Import Database.

(** Claim C10, refuted as stated. A preference made of a high and a
    low surrogate is saved ([save_user_profile] returns [True]) and
    comes back as the one character they encode together. *)
Lemma surrogate_pair_is_read_back_joined :
  (save_user_profile Sample.noon [] Sample.split_pair).1 = true
  /\ Sample.split_pair !! "content_preferences" = Some (FList [[55357; 56832]])
  /\ (get_user_profile (save_user_profile Sample.noon [] Sample.split_pair).2
        (u "alice") ≫= (.!! "content_preferences"))
     = Some (FList [[128512]]).
Proof. repeat split; by vm_compute. Qed.

(** Claim C10, amended. A profile with string [user_id], [name] and
    [email] and with two lists of strings in which no high surrogate
    stands directly before a low one: when [save_user_profile] returns [True], [get_user_profile] on the
    table it leaves finds a profile with the same name, e-mail, time
    zone (["UTC"] when none was given) and the same two lists. On a
    table filled by saves alone, an identifier under which nothing was
    saved gives [None]. *)
Theorem saved_profile_is_read_back (now : str) (db db' : list row)
    (p : gmap string field) (uid nm em : str) (times prefs : list str) :
  p !! "user_id" = Some (FStr uid) ->
  p !! "name" = Some (FStr nm) ->
  p !! "email" = Some (FStr em) ->
  p !! "preferred_notification_times" = Some (FList times) ->
  p !! "content_preferences" = Some (FList prefs) ->
  forallb plain_text times = true ->
  forallb plain_text prefs = true ->
  save_user_profile now db p = (true, db') ->
  (exists q,
     get_user_profile db' uid = Some q
     /\ q !! "name" = Some (FStr nm)
     /\ q !! "email" = Some (FStr em)
     /\ q !! "timezone" = Some (default (FStr (u "UTC")) (p !! "timezone"))
     /\ q !! "preferred_notification_times" = Some (FList times)
     /\ q !! "content_preferences" = Some (FList prefs))
  /\ (forall ps other,
        (forall t p', (t, p') ∈ ps -> p' !! "user_id" <> Some (FStr other)) ->
        get_user_profile (saves [] ps) other = None).
Proof.
  intros Huid Hnm Hem Htimes Hprefs Hst Hsp Hsave. split.
  - unfold save_user_profile in Hsave.
    destruct (save_attempt now db p) as [db1|] eqn:Hatt; [|done].
    injection Hsave as <-.
    destruct (save_attempt_row _ _ _ _ _ Huid Hatt)
      as (r & Hsel & Henc & Hname & Hemail & Htz & Hnt & Hcp).
    rewrite Hnm in Hname. rewrite Hem in Hemail.
    rewrite Htimes in Hnt. rewrite Hprefs in Hcp. cbn [from_option id] in Hnt, Hcp.
    injection Hname as Hname. injection Hemail as Hemail.
    unfold get_user_profile. cbn [bind_param]. rewrite Henc.
    cbn [mbind option_bind]. rewrite Hsel. cbn [mbind option_bind].
    rewrite Hnt, Hcp.
    assert (Hor : forall l, or_empty_list (TEXT (dumps (FList l))) = dumps (FList l))
      by done.
    rewrite !Hor, !loads_dumps by done. cbn [mbind option_bind].
    eexists. split; [reflexivity|].
    unfold dict_of_row. rewrite Hname, Hemail, Htz.
    repeat split; by simplify_map_eq.
  - intros ps other Hps. apply get_user_profile_unknown.
    by apply saves_keep_unknown.
Qed.

Lemma saved_profile_is_read_back_witness :
  exists q,
    get_user_profile (save_user_profile Sample.noon [] Sample.alice).2 (u "alice")
      = Some q
    /\ q !! "name" = Some (FStr (u "Alice"))
    /\ q !! "email" = Some (FStr (u "alice@example.org"))
    /\ q !! "timezone" = Some (FStr (u "UTC"))
    /\ q !! "preferred_notification_times" = Some (FList [u "09:00"; u "21:30"])
    /\ q !! "content_preferences" =
       Some (FList [u "tech"; 99 :: 114 :: 121 :: 112 :: 116 :: 111 :: [128640]]).
Proof.
  apply (proj1 (saved_profile_is_read_back Sample.noon []
                  (save_user_profile Sample.noon [] Sample.alice).2
                  Sample.alice (u "alice") (u "Alice") (u "alice@example.org")
                  [u "09:00"; u "21:30"]
                  [u "tech"; 99 :: 114 :: 121 :: 112 :: 116 :: 111 :: [128640]]
                  eq_refl eq_refl eq_refl eq_refl eq_refl eq_refl eq_refl
                  ltac:(vm_compute; reflexivity))).
Defined.

End DatabaseClaims.

Section PolicyClaims.
Import Policy.

(** Over the limit: the amount test fails whatever the advisory step
    would say. *)
Lemma over_limit_test (challenge : PaymentChallenge) (profile : BudgetProfile) :
  (budgetLimit profile < amount challenge)%Q ->
  Qle_bool (amount challenge) (budgetLimit profile) = false.
Proof.
  intros Hlt. apply not_true_is_false. intros Hle%Qle_bool_iff.
  by apply (Qlt_not_le _ _ Hlt).
Qed.

(** Claim C1, refuted as stated. A challenge over the limit whose
    expiry has passed is rejected as expired, not as over budget. *)
Lemma expired_comes_before_over_budget :
  let challenge := {| amount := 5 # 10; asset := u "SOL"; recipient := u "X";
                      reference := u "r1"; expiry := Some 100%Z;
                      resourceURL := Main.server_url |} in
  let profile := {| identifier := u "main_tester_01"; tier := u "VIP_PLATINUM";
                    budgetLimit := 1 # 10;
                    preference := u "the user is very interested in crypto market" |} in
  (budgetLimit profile < amount challenge)%Q
  /\ decide (fun _ _ => true) 200%Z challenge profile = reject expired.
Proof. split; reflexivity. Qed.

(** Claim C1, amended. A challenge whose amount exceeds the limit of
    the profile is never approved, whatever the tier, the preference and
    the advisory step: it is rejected as over budget, or as expired when
    its expiry has passed, the test that comes first. *)
Theorem over_budget_is_never_approved
    (advisory : PaymentChallenge -> BudgetProfile -> bool) (now : Z)
    (challenge : PaymentChallenge) (profile : BudgetProfile) :
  (budgetLimit profile < amount challenge)%Q ->
  decide advisory now challenge profile <> approve
  /\ decide advisory now challenge profile =
     reject (if has_expired now challenge then expired else over_budget).
Proof.
  intros Hlt. unfold decide. rewrite (over_limit_test _ _ Hlt).
  by destruct (has_expired now challenge).
Qed.

Lemma over_budget_is_never_approved_witness :
  decide (fun _ _ => true) 0%Z
    {| amount := 5 # 10; asset := u "SOL"; recipient := u "X";
       reference := u "r1"; expiry := None; resourceURL := Main.server_url |}
    {| identifier := u "default_guest"; tier := u "standard";
       budgetLimit := 1 # 10; preference := u "" |}
  = reject over_budget.
Proof.
  apply (proj2 (over_budget_is_never_approved (fun _ _ => true) 0%Z
                  {| amount := 5 # 10; asset := u "SOL"; recipient := u "X";
                     reference := u "r1"; expiry := None;
                     resourceURL := Main.server_url |}
                  {| identifier := u "default_guest"; tier := u "standard";
                     budgetLimit := 1 # 10; preference := u "" |}
                  eq_refl)).
Defined.

End PolicyClaims.

(** * Further properties *)

(** ** The profile table: what a save keeps *)

Section StoreFacts.
Import Database Store.

Lemma texts_map (col : row -> sqlval) (f : row -> row) (db : list row) :
  (forall r, col (f r) = col r) -> texts col (map f db) = texts col db.
Proof.
  intros Hcol. unfold texts. induction db as [|r db IH]; [done|].
  cbn. by rewrite Hcol, IH.
Qed.

Lemma texts_snoc (col : row -> sqlval) (db : list row) (r : row) :
  texts col (db ++ [r]) =
  texts col db ++ match col r with TEXT s => [s] | NULL => [] end.
Proof.
  unfold texts. rewrite omap_app. cbn. by destruct (col r).
Qed.

Lemma elem_of_texts (col : row -> sqlval) (db : list row) (s : str) :
  s ∈ texts col db <-> exists r, r ∈ db /\ col r = TEXT s.
Proof.
  unfold texts. rewrite list_elem_of_omap. split.
  - intros (r & Hin & Hr). exists r. split; [done|].
    destruct (col r); by simplify_eq.
  - intros (r & Hin & Hr). exists r. split; [done|]. by rewrite Hr.
Qed.

(** No row carries the text: what the uniqueness tests compute. *)
Lemma forallb_sql_neq (col : row -> sqlval) (db : list row) (s : str) :
  forallb (fun r => negb (sql_eq (col r) (TEXT s))) db = true
  <-> s ∉ texts col db.
Proof.
  rewrite forallb_forall, elem_of_texts. split.
  - intros Hall (r & Hin & Hr). apply list_elem_of_In in Hin.
    specialize (Hall r Hin). rewrite Hr in Hall.
    by rewrite (proj2 (sql_eq_text s s) eq_refl) in Hall.
  - intros Hnot r Hin. apply negb_true_iff, not_true_is_false.
    intros Heq. apply Hnot. exists r. split; [by apply list_elem_of_In|].
    destruct (col r) as [|t]; [done|]. by apply sql_eq_text in Heq as ->.
Qed.

Lemma sql_eq_true a b : sql_eq a b = true -> exists s, a = TEXT s /\ b = TEXT s.
Proof.
  destruct a as [|s], b as [|t]; try done.
  intros ->%sql_eq_text. by exists t.
Qed.

Lemma texts_cons (col : row -> sqlval) (r : row) (db : list row) :
  texts col (r :: db) =
  match col r with TEXT s => s :: texts col db | NULL => texts col db end.
Proof. unfold texts. cbn. by destruct (col r). Qed.

(** The UPDATE keeps the table as the schema wants it. *)
Lemma sql_update_valid now db nm em tz nt cp uid db' :
  valid db ->
  sql_update now db nm em tz nt cp uid = Some db' ->
  valid db'.
Proof.
  intros (Hids & Hemails & Hnn). unfold sql_update.
  destruct (not_null nm) eqn:Hnm; [|done].
  destruct (not_null em) eqn:Hem; [|done]. cbn [andb].
  destruct (unique_email em _) eqn:Huniq; [|done]. intros [= <-].
  destruct em as [|e]; [done|].
  split; [|split].
  - rewrite texts_map; [done|]. intros r. by destruct (sql_eq (user_id r) uid).
  - clear Hnn. revert Hids Hemails Huniq.
    induction db as [|r db IH]; intros Hids Hemails Huniq; [by constructor|].
    assert (Hin : forall s, s ∈ texts email
                (map (fun r0 => if sql_eq (user_id r0) uid
                   then {| user_id := user_id r0; name := nm; email := TEXT e;
                           timezone := tz; preferred_notification_times := nt;
                           content_preferences := cp; created_at := created_at r0;
                           updated_at := TEXT now |} else r0) db) ->
              s = e \/ s ∈ texts email db).
    { intros s (r' & Hr' & Hs)%elem_of_texts.
      apply list_elem_of_fmap in Hr' as (r0 & -> & Hr0).
      destruct (sql_eq (user_id r0) uid); cbn in Hs.
      - left. congruence.
      - right. apply elem_of_texts. by exists r0. }
    cbn [map]. rewrite texts_cons in Hids, Hemails.
    destruct (sql_eq (user_id r) uid) eqn:Hmatch.
    + (* the row of this user: no later row is *)
      apply sql_eq_true in Hmatch as (s & Hr & ->). rewrite Hr in Hids.
      apply NoDup_cons in Hids as [Hfresh Hids].
      assert (Hnone : forall r0, r0 ∈ db -> sql_eq (user_id r0) (TEXT s) = false).
      { intros r0 Hr0. apply not_true_is_false.
        intros (s' & Hr0' & [= ->])%sql_eq_true.
        apply Hfresh, elem_of_texts. by exists r0. }
      assert (Hsame : map (fun r0 => if sql_eq (user_id r0) (TEXT s)
                   then {| user_id := user_id r0; name := nm; email := TEXT e;
                           timezone := tz; preferred_notification_times := nt;
                           content_preferences := cp; created_at := created_at r0;
                           updated_at := TEXT now |} else r0) db = db).
      { clear -Hnone. induction db as [|r0 db IH]; [done|]. cbn.
        rewrite (Hnone r0) by apply list_elem_of_here.
        f_equal. apply IH. intros r1 Hr1. apply Hnone. by apply list_elem_of_further. }
      rewrite Hsame, texts_cons. cbn [email].
      apply NoDup_cons. split.
      * apply forallb_sql_neq.
        unfold unique_email in Huniq. rewrite forallb_forall in Huniq.
        apply forallb_forall. intros r0 Hr0. apply Huniq.
        apply list_elem_of_In. apply list_elem_of_filter. split.
        -- cbn. rewrite (Hnone r0); [done|]. by apply list_elem_of_In.
        -- apply list_elem_of_further. by apply list_elem_of_In.
      * by destruct (email r); [|apply NoDup_cons in Hemails as [_ ?]].
    + (* another row: it stays, and its e-mail is not the new one *)
      assert (Hids' : NoDup (texts user_id db)).
      { by destruct (user_id r); [|apply NoDup_cons in Hids as [_ ?]]. }
      assert (Huniq' : unique_email (TEXT e)
                (filter (fun r0 => negb (sql_eq (user_id r0) uid)) db) = true
              /\ sql_eq (email r) (TEXT e) = false).
      { unfold unique_email in *. rewrite forallb_forall in Huniq. split.
        - apply forallb_forall. intros r0 Hr0. apply Huniq.
          apply list_elem_of_In. apply list_elem_of_In, list_elem_of_filter in Hr0 as [? ?].
          apply list_elem_of_filter. split; [done|]. by apply list_elem_of_further.
        - apply negb_true_iff, Huniq, list_elem_of_In, list_elem_of_filter.
          split; [cbn; by rewrite Hmatch|apply list_elem_of_here]. }
      destruct Huniq' as [Huniq' Hne].
      rewrite texts_cons. destruct (email r) as [|er] eqn:Her.
      * by apply IH.
      * apply NoDup_cons in Hemails as [Hfresh Hemails].
        apply NoDup_cons. split; [|by apply IH].
        intros [->|Hold]%Hin; [|done].
        by rewrite (proj2 (sql_eq_text e e) eq_refl) in Hne.
  - apply Forall_forall. intros r' (r0 & -> & Hr0)%list_elem_of_fmap.
    destruct (sql_eq (user_id r0) uid); [by cbn|].
    by apply (proj1 (Forall_forall _ _) Hnn).
Qed.

(** So does the INSERT. *)
Lemma sql_insert_valid now db uid nm em tz nt cp db' :
  valid db ->
  sql_insert now db uid nm em tz nt cp = Some db' ->
  valid db'.
Proof.
  intros (Hids & Hemails & Hnn). unfold sql_insert.
  destruct (forallb _ db) eqn:Hfresh; [|done].
  destruct (not_null nm) eqn:Hnm; [|done].
  destruct (not_null em) eqn:Hem; [|done]. cbn [andb].
  destruct (unique_email em db) eqn:Huniq; [|done]. intros [= <-].
  destruct em as [|e]; [done|].
  split; [|split].
  - rewrite texts_snoc. cbn [user_id]. destruct uid as [|s].
    + by rewrite app_nil_r.
    + apply NoDup_app. split; [done|]. split; [|apply NoDup_singleton].
      intros x Hx ->%list_elem_of_singleton.
      by apply (proj1 (forallb_sql_neq user_id db s)).
  - rewrite texts_snoc. cbn [email].
    apply NoDup_app. split; [done|]. split; [|apply NoDup_singleton].
    intros x Hx ->%list_elem_of_singleton.
    by apply (proj1 (forallb_sql_neq email db e)).
  - apply Forall_app. split; [done|]. by repeat constructor.
Qed.

Lemma save_user_profile_valid now db p :
  valid db -> valid (save_user_profile now db p).2.
Proof.
  intros Hvalid. unfold save_user_profile.
  destruct (save_attempt now db p) as [db'|] eqn:Hsave; [|done]. cbn.
  apply save_attempt_inv in Hsave
    as (v & uid & nm & nm' & em & em' & tz' & _ & _ & _ & _ & _ & _ & _ & Hdb).
  destruct (select_by_user_id db uid).
  - by apply (sql_update_valid _ _ _ _ _ _ _ _ _ Hvalid Hdb).
  - by apply (sql_insert_valid _ _ _ _ _ _ _ _ _ Hvalid Hdb).
Qed.

Lemma find_snoc_some {A} (P : A -> bool) (l : list A) (x a : A) :
  find P l = Some a -> find P (l ++ [x]) = Some a.
Proof.
  induction l as [|b l IH]; [done|]. cbn. destruct (P b); [done|]. exact IH.
Qed.

(** A save under one identifier does not touch the row of another. *)
Lemma save_attempt_frame now db p db' other :
  p !! "user_id" <> Some (FStr other) ->
  save_attempt now db p = Some db' ->
  select_by_user_id db' (TEXT other) = select_by_user_id db (TEXT other).
Proof.
  intros Hne Hsave.
  apply save_attempt_inv in Hsave
    as (v & uid' & nm & nm' & em & em' & tz' & Hv & Hbind & _ & _ & _ & _ & _ & Hdb).
  assert (Hdiff : sql_eq (TEXT other) uid' = false).
  { destruct uid' as [|s]; [done|]. apply not_true_is_false.
    intros <-%sql_eq_text. apply Hne. rewrite Hv. f_equal.
    apply bind_param_read_back in Hbind. by rewrite <- Hbind. }
  unfold select_by_user_id in *.
  destruct (find (fun r => sql_eq (user_id r) uid') db) as [r0|] eqn:Hsel.
  - unfold sql_update in Hdb. case_match; [|done]. injection Hdb as <-.
    rewrite find_map_same
      by (intros a; cbn beta; by destruct (sql_eq (user_id a) uid') eqn:E).
    destruct (find (fun r => sql_eq (user_id r) (TEXT other)) db)
      as [r|] eqn:Hfound; [|done]. cbn.
    apply find_some in Hfound as [_ (s & Hr & Hs)%sql_eq_true].
    injection Hs as Hs. subst s. by rewrite Hr, Hdiff.
  - unfold sql_insert in Hdb. case_match; [|done]. injection Hdb as <-.
    destruct (find (fun r => sql_eq (user_id r) (TEXT other)) db)
      as [r|] eqn:Hfound.
    + by apply find_snoc_some.
    + rewrite find_snoc_none by done. cbn [user_id].
      destruct uid' as [|s]; [done|]. cbn in Hdiff |- *.
      destruct (decide (s = other)) as [->|Hs].
      * by rewrite bool_decide_eq_true_2 in Hdiff.
      * by rewrite bool_decide_eq_false_2.
Qed.

Lemma find_unique (col : row -> sqlval) (db : list row) (r : row) (s : str) :
  NoDup (texts col db) -> r ∈ db -> col r = TEXT s ->
  find (fun r0 => sql_eq (col r0) (TEXT s)) db = Some r.
Proof.
  induction db as [|a db IH]; intros Hnd Hin Hr; [by apply elem_of_nil in Hin|].
  cbn. rewrite texts_cons in Hnd.
  apply elem_of_cons in Hin as [->|Hin].
  - by rewrite Hr, (proj2 (sql_eq_text s s) eq_refl).
  - destruct (sql_eq (col a) (TEXT s)) eqn:Ha.
    + apply sql_eq_true in Ha as (t & Ha & [= <-]). rewrite Ha in Hnd.
      apply NoDup_cons in Hnd as [Hfresh _]. exfalso.
      apply Hfresh, elem_of_texts. by exists r.
    + apply IH; [|done..].
      by destruct (col a); [|apply NoDup_cons in Hnd as [_ ?]].
Qed.

End StoreFacts.

Section StoreProperties.
Import Database Store.

(** X1. The table stays as the schema wants it through any run of
    saves, whether they succeed or not: identifiers and e-mail
    addresses stay unique, names and addresses are never NULL. *)
Theorem table_stays_valid (db : list row) (ps : list (str * gmap string field)) :
  valid db -> valid (saves db ps).
Proof.
  revert db. induction ps as [|[now p] ps IH]; intros db Hvalid; [done|].
  cbn [saves]. by apply IH, save_user_profile_valid.
Qed.

Lemma table_stays_valid_witness :
  valid (saves [] [(Sample.noon, Sample.alice); (People.evening, People.bob)]).
Proof.
  apply (table_stays_valid []
           [(Sample.noon, Sample.alice); (People.evening, People.bob)]).
  repeat split; constructor.
Defined.

(** X2. Saving a profile changes nothing of what [get_user_profile]
    returns for any other identifier, whether the save succeeds or
    fails. *)
Theorem save_leaves_other_users (now : str) (db : list row)
    (p : gmap string field) (other : str) :
  p !! "user_id" <> Some (FStr other) ->
  get_user_profile (save_user_profile now db p).2 other
  = get_user_profile db other.
Proof.
  intros Hne. unfold save_user_profile.
  destruct (save_attempt now db p) as [db'|] eqn:Hsave; [|done]. cbn [snd].
  unfold get_user_profile.
  destruct (bind_param (FStr other)) as [v|] eqn:Hbind; [|done].
  apply bind_param_str in Hbind as ->. cbn [mbind option_bind].
  by rewrite (save_attempt_frame _ _ _ _ _ Hne Hsave).
Qed.

Lemma save_leaves_other_users_witness :
  get_user_profile
    (save_user_profile People.evening People.one_user People.bob).2 (u "alice")
  = get_user_profile People.one_user (u "alice").
Proof.
  apply (save_leaves_other_users People.evening People.one_user People.bob
           (u "alice")).
  by vm_compute.
Defined.

(** X3. A profile whose e-mail address is already that of a row with
    another identifier is not saved: [save_user_profile] returns
    [False] and the table is as before. *)
Theorem save_rejects_taken_email (now : str) (db : list row)
    (p : gmap string field) (uid em : str) (r : row) :
  p !! "user_id" = Some (FStr uid) ->
  p !! "email" = Some (FStr em) ->
  r ∈ db -> email r = TEXT em -> user_id r <> TEXT uid ->
  save_user_profile now db p = (false, db).
Proof.
  intros Huid Hem Hin Hr Hother. unfold save_user_profile.
  destruct (save_attempt now db p) as [db'|] eqn:Hsave; [exfalso|done].
  apply save_attempt_inv in Hsave
    as (v & uid' & nm & nm' & em0 & em' & tz' & Hv & Hbind & _ & _ & Hem0 & Hem'
        & _ & Hdb).
  rewrite Huid in Hv. injection Hv as <-. apply bind_param_str in Hbind as ->.
  rewrite Hem in Hem0. injection Hem0 as <-. apply bind_param_str in Hem' as ->.
  assert (Hclash : sql_eq (email r) (TEXT em) = true)
    by (rewrite Hr; by apply sql_eq_text).
  assert (Hnot : sql_eq (user_id r) (TEXT uid) = false).
  { apply not_true_is_false. intros (s & Hs & [= <-])%sql_eq_true. by apply Hother. }
  destruct (select_by_user_id db (TEXT uid)).
  - unfold sql_update in Hdb. destruct (not_null nm' && not_null (TEXT em)); [|done].
    cbn [andb] in Hdb.
    destruct (unique_email _ _) eqn:Huniq in Hdb; [|done].
    unfold unique_email in Huniq. rewrite forallb_forall in Huniq.
    assert (Hr' : negb (sql_eq (email r) (TEXT em)) = true).
    { apply Huniq, list_elem_of_In, list_elem_of_filter.
      split; [cbn; by rewrite Hnot|done]. }
    by rewrite Hclash in Hr'.
  - unfold sql_insert in Hdb.
    destruct (forallb _ db && not_null nm' && not_null (TEXT em)); [|done].
    cbn [andb] in Hdb.
    destruct (unique_email _ _) eqn:Huniq in Hdb; [|done].
    unfold unique_email in Huniq. rewrite forallb_forall in Huniq.
    assert (Hr' : negb (sql_eq (email r) (TEXT em)) = true)
      by (by apply Huniq, list_elem_of_In).
    by rewrite Hclash in Hr'.
Qed.

Lemma save_rejects_taken_email_witness :
  save_user_profile People.evening People.one_user People.mallory
  = (false, People.one_user).
Proof.
  apply (save_rejects_taken_email People.evening People.one_user People.mallory
           (u "mallory") (u "alice@example.org") People.alice_row);
    try reflexivity.
  - vm_compute. apply list_elem_of_here.
  - by vm_compute.
Defined.

(** X4. What is never saved: a profile without the key [user_id], or
    whose [name] or [email] is missing, [None], a list, or a string
    UTF-8 cannot encode. [save_user_profile] returns [False] and the
    table is as before. *)
Theorem unsaveable_profile_is_refused (now : str) (db : list row)
    (p : gmap string field) :
  p !! "user_id" = None \/ refused (p !! "name") = true
    \/ refused (p !! "email") = true ->
  save_user_profile now db p = (false, db).
Proof.
  intros Hbad. unfold save_user_profile.
  destruct (save_attempt now db p) as [db1|] eqn:Hsave; [exfalso|done].
  apply save_attempt_inv in Hsave
    as (v & uid & nm & nm' & em & em' & tz' & Hv & _ & Hnm & Hnm' & Hem & Hem'
        & _ & Hdb).
  assert (Hnn : not_null nm' = true /\ not_null em' = true).
  { destruct (select_by_user_id db uid).
    - unfold sql_update in Hdb.
      destruct (not_null nm'), (not_null em'); done.
    - unfold sql_insert in Hdb. destruct (forallb _ db); [|done].
      destruct (not_null nm'), (not_null em'); done. }
  destruct Hnn as [Hnn1 Hnn2].
  destruct Hbad as [Huid|[Hbad|Hbad]].
  - by rewrite Hv in Huid.
  - rewrite Hnm in Hbad.
    destruct nm as [|nm|l]; cbn in Hnm', Hbad; [by simplify_eq| |done].
    by destruct (utf8_encodable nm).
  - rewrite Hem in Hbad.
    destruct em as [|em|l]; cbn in Hem', Hbad; [by simplify_eq| |done].
    by destruct (utf8_encodable em).
Qed.

Lemma unsaveable_profile_is_refused_witness :
  save_user_profile People.evening People.one_user People.nameless
  = (false, People.one_user).
Proof.
  apply (unsaveable_profile_is_refused People.evening People.one_user
           People.nameless).
  right; left. reflexivity.
Defined.

End StoreProperties.

Section StoreLookups.
Import Database Store.

(** X5. On a table as the schema wants it, the profile found under an
    identifier is also what is found under the e-mail address it
    carries. *)
Theorem lookup_by_email_agrees (db : list row) (uid em : str) :
  valid db ->
  get_user_profile db uid ≫= (.!! "email") = Some (FStr em) ->
  utf8_encodable em = true ->
  get_user_profile_by_email db em = get_user_profile db uid.
Proof.
  intros (_ & Hemails & _) Hget Henc.
  unfold get_user_profile in *. unfold get_user_profile_by_email.
  destruct (bind_param (FStr uid)) as [uid'|]; [|done].
  cbn [mbind option_bind] in *.
  destruct (select_by_user_id db uid') as [r|] eqn:Hsel; [|done].
  cbn [mbind option_bind] in *.
  cbn [bind_param]. rewrite Henc. cbn [mbind option_bind].
  assert (Hr : email r = TEXT em).
  { destruct (loads (or_empty_list (preferred_notification_times r))); [|done].
    destruct (loads (or_empty_list (content_preferences r))); [|done].
    cbn in Hget. unfold dict_of_row in Hget. simplify_map_eq.
    destruct (email r); by simplify_eq/=. }
  apply find_some in Hsel as [Hin%list_elem_of_In _].
  unfold select_by_email. by rewrite (find_unique email db r em Hemails Hin Hr).
Qed.

Lemma lookup_by_email_agrees_witness :
  get_user_profile_by_email People.one_user (u "alice@example.org")
  = get_user_profile People.one_user (u "alice").
Proof.
  apply (lookup_by_email_agrees People.one_user (u "alice")
           (u "alice@example.org")).
  - apply (save_user_profile_valid Sample.noon [] Sample.alice).
    repeat split; constructor.
  - vm_compute. reflexivity.
  - reflexivity.
Defined.

End StoreLookups.

Section Resave.
Import Database Store.

Lemma hexdigit_ascii d : d < 16 -> hexdigit d < 128.
Proof. unfold hexdigit. intros Hd. destruct (d <? 10); lia. Qed.

Lemma escape_u_ascii v : forallb (fun c => c <? 128) (escape_u v) = true.
Proof.
  unfold escape_u, hex4. cbn [forallb].
  repeat (apply andb_true_intro; split); try reflexivity;
    apply N.ltb_lt, hexdigit_ascii, N.mod_upper_bound; lia.
Qed.

Lemma encode_char_ascii c : forallb (fun c => c <? 128) (encode_char c) = true.
Proof.
  unfold encode_char.
  repeat (case_match; [reflexivity|]).
  case_match; [cbn; lia|].
  case_match; [apply escape_u_ascii|].
  rewrite forallb_app. by rewrite !escape_u_ascii.
Qed.

Lemma encode_string_ascii s : forallb (fun c => c <? 128) (encode_string s) = true.
Proof.
  unfold encode_string. cbn [forallb]. rewrite forallb_app. cbn.
  rewrite andb_true_r. induction s as [|c s IH]; [done|].
  cbn [flat_map]. by rewrite forallb_app, encode_char_ascii, IH.
Qed.

(** With [ensure_ascii], what [dumps] writes is ASCII. *)
Lemma dumps_ascii v : forallb (fun c => c <? 128) (dumps v) = true.
Proof.
  destruct v as [|s|l]; cbn [dumps]; [reflexivity|apply encode_string_ascii|].
  change (u "[") with [91]. change (u "]") with [93]. cbn [app forallb].
  rewrite forallb_app. cbn. rewrite andb_true_r.
  induction l as [|x [|y l] IH]; [done| |].
  - cbn. apply encode_string_ascii.
  - rewrite join_items_two, !forallb_app, encode_string_ascii, IH. reflexivity.
Qed.

Lemma dumps_encodable v : utf8_encodable (dumps v) = true.
Proof.
  unfold utf8_encodable. pose proof (dumps_ascii v) as Hascii.
  rewrite forallb_forall in *. intros c Hc. specialize (Hascii c Hc).
  unfold is_scalar. lia.
Qed.

(** A save whose parameters all bind comes down to one statement. *)
Lemma save_attempt_run now db p v uid nm nm' em em' tz' :
  p !! "user_id" = Some v -> bind_param v = Some uid ->
  p !! "name" = Some nm -> bind_param nm = Some nm' ->
  p !! "email" = Some em -> bind_param em = Some em' ->
  bind_param (default (FStr (u "UTC")) (p !! "timezone")) = Some tz' ->
  save_attempt now db p =
  match select_by_user_id db uid with
  | Some _ =>
      sql_update now db nm' em' tz'
        (TEXT (dumps (default (FList []) (p !! "preferred_notification_times"))))
        (TEXT (dumps (default (FList []) (p !! "content_preferences"))))
        uid
  | None =>
      sql_insert now db uid nm' em' tz'
        (TEXT (dumps (default (FList []) (p !! "preferred_notification_times"))))
        (TEXT (dumps (default (FList []) (p !! "content_preferences"))))
  end.
Proof.
  intros Hv Hbind Hnm Hnm' Hem Hem' Htz. unfold save_attempt.
  rewrite Hv. cbn [mbind option_bind]. rewrite Hbind.
  cbn [mbind option_bind bind_param]. rewrite !dumps_encodable.
  cbn [mbind option_bind]. rewrite Hnm, Hem. cbn [mbind option_bind].
  rewrite Hnm', Hem', Htz. cbn [mbind option_bind].
  by destruct (select_by_user_id db uid).
Qed.




End Resave.

Section Listing.
Import Database Store.

Lemma insert_desc_perm r l : insert_desc r l ≡ₚ r :: l.
Proof.
  induction l as [|x l IH]; [done|]. cbn.
  destruct (sql_leb (created_at x) (created_at r)); [done|].
  rewrite IH. apply Permutation_swap.
Qed.

(** Ordering the rows loses none and adds none. *)
Lemma order_by_created_at_desc_perm db : order_by_created_at_desc db ≡ₚ db.
Proof.
  unfold order_by_created_at_desc. induction db as [|r db IH]; [done|].
  cbn. by rewrite insert_desc_perm, IH.
Qed.

Lemma or_empty_list_dumps v : or_empty_list (TEXT (dumps v)) = dumps v.
Proof. destruct v as [|s|l]; reflexivity. Qed.

(** The profile read from a row whose JSON columns load. *)
Lemma get_user_profile_of_row db uid q :
  get_user_profile db uid = Some q ->
  exists r nt cp,
    r ∈ db
    /\ loads (or_empty_list (preferred_notification_times r)) = Some nt
    /\ loads (or_empty_list (content_preferences r)) = Some cp
    /\ q = <["content_preferences" := cp]>
           (<["preferred_notification_times" := nt]> (dict_of_row r)).
Proof.
  unfold get_user_profile.
  destruct (bind_param (FStr uid)) as [uid'|]; [|done]. cbn [mbind option_bind].
  destruct (select_by_user_id db uid') as [r|] eqn:Hsel; [|done].
  cbn [mbind option_bind].
  destruct (loads (or_empty_list (preferred_notification_times r))) as [nt|] eqn:Hnt;
    [|done].
  destruct (loads (or_empty_list (content_preferences r))) as [cp|] eqn:Hcp;
    [|done].
  cbn. intros [= <-]. exists r, nt, cp.
  apply find_some in Hsel as [Hin%list_elem_of_In _]. done.
Qed.

(** When the loop of [list_all_profiles] ends well it has made one
    profile of every row. *)
Lemma profiles_of_rows_all rows ps :
  profiles_of_rows rows = Some ps ->
  length ps = length rows
  /\ forall r nt cp,
       r ∈ rows ->
       loads (or_empty_list (preferred_notification_times r)) = Some nt ->
       loads (or_empty_list (content_preferences r)) = Some cp ->
       <["content_preferences" := cp]>
         (<["preferred_notification_times" := nt]> (dict_of_row r)) ∈ ps.
Proof.
  revert ps. induction rows as [|r rows IH]; intros ps; cbn.
  - intros [= <-]. split; [done|]. intros r nt cp Hin. by apply elem_of_nil in Hin.
  - destruct (loads (or_empty_list (preferred_notification_times r))) as [nt0|] eqn:Hnt;
      [|done].
    destruct (loads (or_empty_list (content_preferences r))) as [cp0|] eqn:Hcp;
      [|done].
    cbn. destruct (profiles_of_rows rows) as [ps0|]; [|done]. cbn.
    intros [= <-]. destruct (IH ps0 eq_refl) as [Hlen Hall].
    split; [cbn; by rewrite Hlen|].
    intros r' nt cp [->|Hin]%elem_of_cons Hnt' Hcp'.
    + rewrite Hnt in Hnt'. rewrite Hcp in Hcp'. simplify_eq. apply list_elem_of_here.
    + apply list_elem_of_further. by apply Hall.
Qed.

(** It ends well on rows whose JSON columns were written by [dumps]. *)
Lemma profiles_of_rows_written rows :
  Forall json_written rows -> is_Some (profiles_of_rows rows).
Proof.
  induction 1 as [|r rows (nt & cp & Hnt & Hcp & Hr1 & Hr2) _ IH]; [by eexists|].
  cbn. rewrite Hr1, Hr2, !or_empty_list_dumps, !loads_dumps by done. cbn.
  destruct IH as [ps ->]. by eexists.
Qed.

(** A save of a profile with plain lists writes such columns. *)
Lemma save_user_profile_written now db p :
  plain_profile p ->
  Forall json_written db ->
  Forall json_written (save_user_profile now db p).2.
Proof.
  intros [Hp1 Hp2] Hdb. unfold save_user_profile.
  destruct (save_attempt now db p) as [db'|] eqn:Hsave; [|done]. cbn.
  apply save_attempt_inv in Hsave
    as (v & uid & nm & nm' & em & em' & tz' & _ & _ & _ & _ & _ & _ & _ & Hdb').
  assert (Hnew : forall r,
            preferred_notification_times r =
              TEXT (dumps (default (FList []) (p !! "preferred_notification_times"))) ->
            content_preferences r =
              TEXT (dumps (default (FList []) (p !! "content_preferences"))) ->
            json_written r).
  { intros r H1 H2.
    exists (default (FList []) (p !! "preferred_notification_times")),
           (default (FList []) (p !! "content_preferences")).
    by repeat split. }
  destruct (select_by_user_id db uid).
  - unfold sql_update in Hdb'. case_match; [|done]. injection Hdb' as <-.
    apply Forall_forall. intros r' (r0 & -> & Hr0)%list_elem_of_fmap.
    destruct (sql_eq (user_id r0) uid); [by apply Hnew|].
    by apply (proj1 (Forall_forall _ _) Hdb).
  - unfold sql_insert in Hdb'. case_match; [|done]. injection Hdb' as <-.
    apply Forall_app. split; [done|]. constructor; [by apply Hnew|constructor].
Qed.

(** X7. On a table filled by saves of profiles whose lists are plain
    text, [list_all_profiles] returns one profile for every row, and
    every profile that [get_user_profile] finds is among them. *)
Theorem list_all_profiles_is_complete (db : list row)
    (ps : list (str * gmap string field)) :
  Forall json_written db ->
  (forall t p, (t, p) ∈ ps -> plain_profile p) ->
  length (list_all_profiles (saves db ps)) = length (saves db ps)
  /\ forall uid q,
       get_user_profile (saves db ps) uid = Some q ->
       q ∈ list_all_profiles (saves db ps).
Proof.
  intros Hdb Hps.
  assert (Hwritten : Forall json_written (saves db ps)).
  { revert db Hdb. induction ps as [|[t p] ps IH]; intros db Hdb; [done|].
    cbn [saves]. apply IH.
    - intros t' p' Hin. apply (Hps t' p'). by apply list_elem_of_further.
    - apply save_user_profile_written; [|done]. apply (Hps t p), list_elem_of_here. }
  generalize dependent (saves db ps). intros db' Hwritten.
  unfold list_all_profiles.
  destruct (profiles_of_rows_written (order_by_created_at_desc db')) as [l Hl].
  { by rewrite order_by_created_at_desc_perm. }
  rewrite Hl. cbn. destruct (profiles_of_rows_all _ _ Hl) as [Hlen Hall].
  split.
  - rewrite Hlen. apply Permutation_length, order_by_created_at_desc_perm.
  - intros uid q (r & nt & cp & Hin & Hnt & Hcp & ->)%get_user_profile_of_row.
    apply Hall; [|done..]. by rewrite order_by_created_at_desc_perm.
Qed.

Lemma list_all_profiles_is_complete_witness :
  length (list_all_profiles
            (saves [] [(Sample.noon, Sample.alice); (People.evening, People.bob)]))
  = length (saves [] [(Sample.noon, Sample.alice); (People.evening, People.bob)]).
Proof.
  apply (list_all_profiles_is_complete []
           [(Sample.noon, Sample.alice); (People.evening, People.bob)]).
  - constructor.
  - intros t p Hin.
    apply elem_of_cons in Hin as [[= -> ->]|Hin]; [by split|].
    apply elem_of_cons in Hin as [[= -> ->]|Hin]; [by split|].
    by apply elem_of_nil in Hin.
Defined.

End Listing.

(** ** The API endpoints *)

Section StripFacts.

(** [lstrip] cuts white space off the front and nothing else. *)
Lemma lstrip_suffix s : exists ws, s = ws ++ lstrip s /\ forallb isspace ws = true.
Proof.
  induction s as [|c s (ws & Hs & Hws)]; [by exists []|]. cbn.
  destruct (isspace c) eqn:Hc.
  - exists (c :: ws). cbn. rewrite Hc, Hws. split; [by f_equal|done].
  - by exists [].
Qed.

Lemma lstrip_head s c t : lstrip s = c :: t -> isspace c = false.
Proof.
  induction s as [|a s IH]; [done|]. cbn.
  destruct (isspace a) eqn:Ha; [done|]. by intros [= <- _].
Qed.

Lemma lstrip_fixed s : match s with [] => True | c :: _ => isspace c = false end ->
  lstrip s = s.
Proof. destruct s as [|c s]; [done|]. cbn. by intros ->. Qed.

Lemma lstrip_idemp s : lstrip (lstrip s) = lstrip s.
Proof.
  apply lstrip_fixed. destruct (lstrip s) as [|c t] eqn:E; [done|].
  by apply lstrip_head in E.
Qed.

(** [rstrip] cuts white space off the end and nothing else. *)
Lemma rstrip_prefix s : exists ws, s = rstrip s ++ ws.
Proof.
  unfold rstrip. destruct (lstrip_suffix (rev s)) as (ws & Hs & _).
  exists (rev ws). rewrite <- rev_app_distr, <- Hs. by rewrite rev_involutive.
Qed.

(** Stripping twice is stripping once. *)
Lemma strip_idemp s : strip (strip s) = strip s.
Proof.
  unfold strip.
  assert (Hl : lstrip (rstrip (lstrip s)) = rstrip (lstrip s)).
  { apply lstrip_fixed. destruct (rstrip_prefix (lstrip s)) as [ws Hws].
    destruct (rstrip (lstrip s)) as [|c t]; [done|].
    rewrite <- app_comm_cons in Hws. by apply lstrip_head in Hws. }
  rewrite Hl. unfold rstrip at 1 2. rewrite rev_involutive. by rewrite lstrip_idemp.
Qed.

Lemma lstrip_incl s c : c ∈ lstrip s -> c ∈ s.
Proof.
  destruct (lstrip_suffix s) as (ws & Hs & _). intros Hc.
  rewrite Hs. apply elem_of_app. by right.
Qed.

Lemma elem_of_rev (l : str) c : c ∈ rev l <-> c ∈ l.
Proof. rewrite !list_elem_of_In. symmetry. apply in_rev. Qed.

(** What is left after stripping was there before. *)
Lemma strip_incl s c : c ∈ strip s -> c ∈ s.
Proof.
  unfold strip, rstrip. intros Hc.
  apply (proj1 (elem_of_rev _ _)), lstrip_incl in Hc.
  apply (proj1 (elem_of_rev _ _)) in Hc. by apply lstrip_incl.
Qed.

End StripFacts.

Section ParseFacts.
Import Api.

Lemma split_cons sep c s :
  split sep (c :: s) =
  if c =? sep then [] :: split sep s
  else (c :: hd [] (split sep s)) :: tl (split sep s).
Proof.
  cbn. destruct (c =? sep); [done|]. destruct (split sep s) eqn:E; [|done].
  by destruct s; cbn in E; repeat case_match.
Qed.

Lemma split_not_nil sep s : split sep s <> [].
Proof. destruct s as [|c s]; [done|]. rewrite split_cons. by case_match. Qed.

(** A piece has no separator in it and is made of what was there. *)
Lemma split_piece sep s t :
  t ∈ split sep s -> (sep ∉ t) /\ forall c, c ∈ t -> c ∈ s.
Proof.
  revert t. induction s as [|a s IH]; intros t.
  - intros ->%list_elem_of_singleton. split; [apply not_elem_of_nil|done].
  - rewrite split_cons. pose proof (split_not_nil sep s) as Hne.
    destruct (split sep s) as [|p ps] eqn:E; [done|]. cbn [hd tl].
    destruct (a =? sep) eqn:Ha.
    + intros [->|Hin]%elem_of_cons.
      * split; [apply not_elem_of_nil|]. intros c Hc. by apply elem_of_nil in Hc.
      * destruct (IH t Hin) as [H1 H2]. split; [done|].
        intros c Hc. apply list_elem_of_further. by apply H2.
    + intros [->|Hin]%elem_of_cons.
      * destruct (IH p (list_elem_of_here _ _)) as [H1 H2]. split.
        -- intros [->|Hp]%elem_of_cons; [by rewrite N.eqb_refl in Ha|done].
        -- intros c [->|Hc]%elem_of_cons; [apply list_elem_of_here|].
           apply list_elem_of_further. by apply H2.
      * destruct (IH t (list_elem_of_further _ _ _ Hin)) as [H1 H2]. split; [done|].
        intros c Hc. apply list_elem_of_further. by apply H2.
Qed.

Lemma elem_of_stripped_items s t :
  t ∈ stripped_items s <->
  exists t0, t0 ∈ split COMMA s /\ t = strip t0 /\ strip t0 <> [].
Proof.
  unfold stripped_items. rewrite list_elem_of_In, in_flat_map. split.
  - intros (t0 & Hin & Ht). exists t0. apply list_elem_of_In in Hin.
    destruct (strip t0) eqn:E; cbn in Ht; [done|].
    by destruct Ht as [<-|[]].
  - intros (t0 & Hin & -> & Hne). exists t0. split; [by apply list_elem_of_In|].
    destruct (strip t0); [done|]. by left.
Qed.

Lemma contains_singleton c s : contains [c] s = true <-> c ∈ s.
Proof.
  induction s as [|a s IH]; cbn.
  - split; [done|]. intros H. by apply elem_of_nil in H.
  - rewrite orb_true_iff, IH, andb_true_r, N.eqb_eq, elem_of_cons.
    split; (intros [->|?]; [by left|by right]).
Qed.

(** Text UTF-8 can encode survives the JSON round trip. *)
Lemma encodable_plain s : Database.utf8_encodable s = true -> plain_text s = true.
Proof.
  unfold Database.utf8_encodable, plain_text. intros Hs.
  apply andb_true_intro. split.
  - rewrite forallb_forall in *. intros c Hc. specialize (Hs c Hc).
    unfold is_scalar, is_code_point in *. lia.
  - induction s as [|c s IH]; [done|]. cbn in Hs |- *.
    apply andb_prop in Hs as [Hc Hs]. rewrite (IH Hs), andb_true_r.
    destruct s as [|d s]; [done|].
    unfold is_scalar, is_high_surrogate in *. apply negb_true_iff.
    apply andb_false_intro1. lia.
Qed.

Lemma encodable_incl s t :
  Database.utf8_encodable s = true -> (forall c, c ∈ t -> c ∈ s) -> Database.utf8_encodable t = true.
Proof.
  unfold Database.utf8_encodable. rewrite !forallb_forall. intros Hs Hincl c Hc.
  apply Hs, list_elem_of_In, Hincl. by apply list_elem_of_In.
Qed.

Lemma stripped_items_incl s t c : t ∈ stripped_items s -> c ∈ t -> c ∈ s.
Proof.
  intros (t0 & Hin & -> & _)%elem_of_stripped_items Hc%strip_incl.
  by apply (proj2 (split_piece _ _ _ Hin)).
Qed.

Lemma parse_notification_times_plain s :
  Database.utf8_encodable s = true -> forallb plain_text (parse_notification_times s) = true.
Proof.
  intros Hs. apply forallb_forall. intros t Ht%list_elem_of_In.
  apply encodable_plain, (encodable_incl s); [done|]. intros c Hc.
  unfold parse_notification_times in Ht. destruct (truthy s).
  - by apply (stripped_items_incl s t).
  - by apply elem_of_nil in Ht.
Qed.

Lemma parse_interests_plain s :
  Database.utf8_encodable s = true -> forallb plain_text (parse_interests s) = true.
Proof.
  intros Hs. apply forallb_forall. intros t Ht%list_elem_of_In.
  apply encodable_plain, (encodable_incl s); [done|]. intros c Hc.
  unfold parse_interests in Ht. destruct (truthy s).
  - destruct (contains [COMMA] s).
    + by apply (stripped_items_incl s t).
    + apply list_elem_of_singleton in Ht as ->. by apply strip_incl.
  - by apply elem_of_nil in Ht.
Qed.

(** The identifier is the start of the address, up to its first [@]. *)
Lemma user_id_of_email_prefix email :
  (AT ∉ user_id_of_email email)
  /\ exists rest, email = user_id_of_email email ++ rest.
Proof.
  unfold user_id_of_email. split.
  - pose proof (split_not_nil AT email).
    destruct (split AT email) as [|p ps] eqn:E; [done|]. cbn.
    apply (split_piece AT email p). rewrite E. apply list_elem_of_here.
  - induction email as [|c s [rest IH]]; [by exists []|].
    rewrite split_cons. destruct (c =? AT); cbn [hd].
    + by eexists.
    + exists rest. cbn. by f_equal.
Qed.

Lemma user_id_of_email_encodable email :
  Database.utf8_encodable email = true -> Database.utf8_encodable (user_id_of_email email) = true.
Proof.
  intros He. apply (encodable_incl email); [done|]. intros c Hc.
  destruct (user_id_of_email_prefix email) as [_ (rest & Hrest)].
  rewrite Hrest. apply elem_of_app. by left.
Qed.

(** X8. The notification times and the interests taken from a
    request: every time is a piece between commas with the white space
    around it removed, never empty and free of commas; every interest
    is stripped too, and is empty only when the whole field was white
    space without a comma. *)
Theorem parsed_items_are_clean (s t : str) :
  (t ∈ parse_notification_times s ->
     t <> [] /\ strip t = t /\ (COMMA ∉ t) /\ forall c, c ∈ t -> c ∈ s)
  /\ (t ∈ parse_interests s ->
     strip t = t /\ (COMMA ∉ t)
     /\ (t = [] -> s <> [] /\ strip s = [] /\ (COMMA ∉ s))).
Proof.
  assert (Hitems : forall t, t ∈ stripped_items s ->
            t <> [] /\ strip t = t /\ (COMMA ∉ t) /\ forall c, c ∈ t -> c ∈ s).
  { intros t' Ht. pose proof Ht as (t0 & Hin & -> & Hne)%elem_of_stripped_items.
    repeat split; [done|apply strip_idemp| |].
    - intros Hc%strip_incl. by apply (proj1 (split_piece _ _ _ Hin)).
    - intros c Hc. by apply (stripped_items_incl s (strip t0)). }
  split.
  - unfold parse_notification_times. destruct (truthy s); [apply Hitems|].
    intros H. by apply elem_of_nil in H.
  - unfold parse_interests. destruct s as [|a s']; cbn [truthy].
    { intros H. by apply elem_of_nil in H. }
    destruct (contains [COMMA] (a :: s')) eqn:Hcomma.
    + intros Ht. destruct (Hitems t Ht) as (Hne & Hstrip & Hc & _).
      by repeat split.
    + intros ->%list_elem_of_singleton.
      assert (Hnc : COMMA ∉ a :: s').
      { intros Hc%contains_singleton. by rewrite Hcomma in Hc. }
      repeat split; [apply strip_idemp| |done..].
      intros Hc%strip_incl. by apply Hnc.
Qed.

Lemma parsed_items_are_clean_witness :
  u "21:30" <> [] /\ strip (u "21:30") = u "21:30" /\ (COMMA ∉ u "21:30")
  /\ forall c, c ∈ u "21:30" -> c ∈ u " 09:00 , 21:30,, ".
Proof.
  apply (proj1 (parsed_items_are_clean (u " 09:00 , 21:30,, ") (u "21:30"))).
  vm_compute. apply list_elem_of_further, list_elem_of_here.
Defined.

End ParseFacts.

Section RegistrationFacts.
Import Database Store Registration.

Lemma find_none_forallb {A} (P : A -> bool) (l : list A) :
  find P l = None -> forallb (fun a => negb (P a)) l = true.
Proof.
  intros Hnone. apply forallb_forall. intros a Ha.
  by rewrite (find_none P l Hnone a Ha).
Qed.

Lemma map_unmatched (uid : sqlval) (f : row -> row) (db : list row) :
  select_by_user_id db uid = None ->
  map (fun r => if sql_eq (user_id r) uid then f r else r) db = db.
Proof.
  intros Hnone. rewrite <- (map_id db) at 2. apply map_ext_in.
  intros r Hr. by rewrite (find_none _ _ Hnone r Hr).
Qed.

(** What [get_user_profile] and [get_user_profile_by_email] make of the
    row of a registration. *)
Lemma read_registration c t name email nt interests :
  utf8_encodable nt = true -> utf8_encodable interests = true ->
  (loads (or_empty_list (preferred_notification_times
            (row_of c t name email nt interests)))
   ≫= fun a =>
        loads (or_empty_list (content_preferences
                 (row_of c t name email nt interests)))
        ≫= fun b =>
             Some (<["content_preferences" := b]>
                   (<["preferred_notification_times" := a]>
                    (dict_of_row (row_of c t name email nt interests)))))
  = Some (stored c t name email nt interests).
Proof.
  intros Hnt Hint. cbn [row_of preferred_notification_times content_preferences].
  rewrite !or_empty_list_dumps.
  rewrite !loads_dumps
    by (cbn [plain_field];
        first [by apply parse_notification_times_plain
              |by apply parse_interests_plain]).
  reflexivity.
Qed.

(** The save of a registration: the statement it comes down to. *)
Lemma save_registration now db name email nt interests :
  well_formed name email nt interests ->
  save_attempt now db (profile_of name email nt interests) =
  match select_by_user_id db (TEXT (Api.user_id_of_email email)) with
  | Some _ =>
      sql_update now db (TEXT name) (TEXT email) (TEXT (u "UTC"))
        (TEXT (dumps (FList (Api.parse_notification_times nt))))
        (TEXT (dumps (FList (Api.parse_interests interests))))
        (TEXT (Api.user_id_of_email email))
  | None =>
      sql_insert now db (TEXT (Api.user_id_of_email email))
        (TEXT name) (TEXT email) (TEXT (u "UTC"))
        (TEXT (dumps (FList (Api.parse_notification_times nt))))
        (TEXT (dumps (FList (Api.parse_interests interests))))
  end.
Proof.
  intros (Hname & Hemail & _ & _).
  rewrite (save_attempt_run now db (profile_of name email nt interests)
             (FStr (Api.user_id_of_email email)) (TEXT (Api.user_id_of_email email))
             (FStr name) (TEXT name) (FStr email) (TEXT email) (TEXT (u "UTC"))).
  - unfold profile_of. by simplify_map_eq.
  - unfold profile_of. by simplify_map_eq.
  - cbn. by rewrite user_id_of_email_encodable.
  - unfold profile_of. by simplify_map_eq.
  - cbn. by rewrite Hname.
  - unfold profile_of. by simplify_map_eq.
  - cbn. by rewrite Hemail.
  - unfold profile_of. by simplify_map_eq.
Qed.

(** A registration under a fresh address adds its row. *)
Lemma create_fresh now db name email nt interests :
  well_formed name email nt interests ->
  fresh db email ->
  Api.create_user_profile true now db name email nt interests =
  (Api.Returns
     {| Api.status := u "success";
        Api.message := u "Profile created successfully for " ++ name;
        Api.user_id := Api.user_id_of_email email;
        Api.profile := profile_of name email nt interests |},
   db ++ [row_of now now name email nt interests]).
Proof.
  intros Hwf [Hemail Hid]. pose proof Hwf as (Hname & Henc & _ & _).
  unfold Api.create_user_profile. cbn [negb].
  unfold get_user_profile_by_email. cbn [bind_param]. rewrite Henc.
  cbn [mbind option_bind]. rewrite Hemail. cbn [mbind option_bind].
  change (<["user_id" := _]> _) with (profile_of name email nt interests).
  unfold save_user_profile. rewrite (save_registration _ _ _ _ _ _ Hwf), Hid.
  unfold sql_insert.
  rewrite (find_none_forallb _ _ Hid).
  unfold unique_email, select_by_email in *.
  rewrite (find_none_forallb _ _ Hemail). reflexivity.
Qed.

Lemma lookup_registration_by_email db c t name email nt interests :
  utf8_encodable email = true ->
  utf8_encodable nt = true -> utf8_encodable interests = true ->
  select_by_email db (TEXT email) = None ->
  get_user_profile_by_email (db ++ [row_of c t name email nt interests]) email
  = Some (stored c t name email nt interests).
Proof.
  intros Henc Hnt Hint Hnone. unfold get_user_profile_by_email.
  cbn [bind_param]. rewrite Henc. cbn [mbind option_bind].
  unfold select_by_email in *. rewrite find_snoc_none by done.
  cbn [Database.email row_of]. rewrite (proj2 (sql_eq_text email email) eq_refl).
  cbn [mbind option_bind]. by apply read_registration.
Qed.

Lemma lookup_registration_by_id db c t name email nt interests :
  utf8_encodable email = true ->
  utf8_encodable nt = true -> utf8_encodable interests = true ->
  select_by_user_id db (TEXT (Api.user_id_of_email email)) = None ->
  get_user_profile (db ++ [row_of c t name email nt interests])
    (Api.user_id_of_email email)
  = Some (stored c t name email nt interests).
Proof.
  intros Henc Hnt Hint Hnone. unfold get_user_profile.
  cbn [bind_param]. rewrite (user_id_of_email_encodable _ Henc).
  cbn [mbind option_bind].
  unfold select_by_user_id in *. rewrite find_snoc_none by done.
  cbn [Database.user_id row_of].
  rewrite (proj2 (sql_eq_text _ _) eq_refl).
  cbn [mbind option_bind]. by apply read_registration.
Qed.

Lemma stored_lookups c t name email nt interests :
  stored c t name email nt interests !! "user_id"
    = Some (FStr (Api.user_id_of_email email))
  /\ stored c t name email nt interests !! "name" = Some (FStr name)
  /\ stored c t name email nt interests !! "email" = Some (FStr email)
  /\ stored c t name email nt interests !! "preferred_notification_times"
     = Some (FList (Api.parse_notification_times nt))
  /\ stored c t name email nt interests !! "content_preferences"
     = Some (FList (Api.parse_interests interests)).
Proof. unfold stored, dict_of_row. repeat split; by simplify_map_eq. Qed.

End RegistrationFacts.

Section ApiProperties.
Import Database Store Registration.

(** X9. A registration for an address and an identifier the table
    does not have answers [success], and the profile is then found
    under the address and under the identifier, with the name given and
    the two lists as they were parsed. *)
Theorem registration_is_stored (now : str) (db : list row)
    (name email notification_time interests : str) :
  well_formed name email notification_time interests ->
  fresh db email ->
  exists resp db' q,
    Api.create_user_profile true now db name email notification_time interests
      = (Api.Returns resp, db')
    /\ Api.status resp = u "success"
    /\ Api.user_id resp = Api.user_id_of_email email
    /\ get_user_profile_by_email db' email = Some q
    /\ get_user_profile db' (Api.user_id_of_email email) = Some q
    /\ q !! "name" = Some (FStr name)
    /\ q !! "email" = Some (FStr email)
    /\ q !! "preferred_notification_times"
       = Some (FList (Api.parse_notification_times notification_time))
    /\ q !! "content_preferences" = Some (FList (Api.parse_interests interests)).
Proof.
  intros Hwf Hfresh. pose proof Hwf as (_ & Henc & Hnt & Hint).
  pose proof Hfresh as [Hemail Hid].
  eexists _, _, (stored now now name email notification_time interests).
  split; [by apply create_fresh|].
  split; [reflexivity|]. split; [reflexivity|].
  split; [by apply lookup_registration_by_email|].
  split; [by apply lookup_registration_by_id|].
  by destruct (stored_lookups now now name email notification_time interests)
    as (_ & ? & ? & ? & ?).
Qed.

Lemma registration_is_stored_witness :
  exists resp db' q,
    Api.create_user_profile true Requests.morning [] (u "Alice")
      Requests.alice_mail (u "09:00, 21:30") (u "tech,crypto")
      = (Api.Returns resp, db')
    /\ Api.status resp = u "success"
    /\ Api.user_id resp = Api.user_id_of_email Requests.alice_mail
    /\ get_user_profile_by_email db' Requests.alice_mail = Some q
    /\ get_user_profile db' (Api.user_id_of_email Requests.alice_mail) = Some q
    /\ q !! "name" = Some (FStr (u "Alice"))
    /\ q !! "email" = Some (FStr Requests.alice_mail)
    /\ q !! "preferred_notification_times"
       = Some (FList (Api.parse_notification_times (u "09:00, 21:30")))
    /\ q !! "content_preferences"
       = Some (FList (Api.parse_interests (u "tech,crypto"))).
Proof.
  apply (registration_is_stored Requests.morning [] (u "Alice")
           Requests.alice_mail (u "09:00, 21:30") (u "tech,crypto")).
  - by repeat split.
  - by split.
Defined.

(** X10. A second request for a registered address answers
    [already_registered] with the identifier and the profile of the
    first registration, whatever name, times and interests it brings,
    and leaves the table as it is. *)
Theorem second_registration_changes_nothing (now now' : str) (db : list row)
    (name email notification_time interests : str)
    (name' notification_time' interests' : str) :
  well_formed name email notification_time interests ->
  fresh db email ->
  exists resp db1 resp',
    Api.create_user_profile true now db name email notification_time interests
      = (Api.Returns resp, db1)
    /\ Api.create_user_profile true now' db1 name' email notification_time'
         interests' = (Api.Returns resp', db1)
    /\ Api.status resp' = u "already_registered"
    /\ Api.user_id resp' = Api.user_id_of_email email
    /\ Api.profile resp' !! "name" = Some (FStr name).
Proof.
  intros Hwf Hfresh. pose proof Hwf as (_ & Henc & Hnt & Hint).
  pose proof Hfresh as [Hemail Hid].
  eexists _, _, _. split; [by apply create_fresh|].
  unfold Api.create_user_profile at 1. cbn [negb].
  rewrite lookup_registration_by_email by done.
  destruct (stored_lookups now now name email notification_time interests)
    as (Huid & Hname & _).
  rewrite Huid. split; [reflexivity|]. by repeat split.
Qed.

Lemma second_registration_changes_nothing_witness :
  exists resp db1 resp',
    Api.create_user_profile true Requests.morning [] (u "Alice")
      Requests.alice_mail (u "09:00") (u "tech") = (Api.Returns resp, db1)
    /\ Api.create_user_profile true Requests.later db1 (u "Alicia")
         Requests.alice_mail (u "") (u "sports") = (Api.Returns resp', db1)
    /\ Api.status resp' = u "already_registered"
    /\ Api.user_id resp' = Api.user_id_of_email Requests.alice_mail
    /\ Api.profile resp' !! "name" = Some (FStr (u "Alice")).
Proof.
  apply (second_registration_changes_nothing Requests.morning Requests.later []
           (u "Alice") Requests.alice_mail (u "09:00") (u "tech")
           (u "Alicia") (u "") (u "sports")).
  - by repeat split.
  - by split.
Defined.

(** A registration whose address is new but whose identifier is that
    of the last row rewrites that row. *)
Lemma create_collision now now' db name1 email1 nt1 int1 name2 email2 nt2 int2 :
  well_formed name2 email2 nt2 int2 ->
  fresh db email1 ->
  select_by_email db (TEXT email2) = None ->
  email2 <> email1 ->
  Api.user_id_of_email email2 = Api.user_id_of_email email1 ->
  Api.create_user_profile true now'
    (db ++ [row_of now now name1 email1 nt1 int1]) name2 email2 nt2 int2 =
  (Api.Returns
     {| Api.status := u "success";
        Api.message := u "Profile created successfully for " ++ name2;
        Api.user_id := Api.user_id_of_email email2;
        Api.profile := profile_of name2 email2 nt2 int2 |},
   db ++ [row_of now now' name2 email2 nt2 int2]).
Proof.
  intros Hwf [Hemail1 Hid] Hemail2 Hne Hsame.
  pose proof Hwf as (Hname & Henc & _ & _).
  assert (Hdiff : sql_eq (TEXT email1) (TEXT email2) = false).
  { apply not_true_is_false. by intros ->%sql_eq_text. }
  unfold Api.create_user_profile. cbn [negb].
  unfold get_user_profile_by_email. cbn [bind_param]. rewrite Henc.
  cbn [mbind option_bind]. unfold select_by_email in *.
  rewrite find_snoc_none by done. cbn [Database.email row_of]. rewrite Hdiff.
  cbn [mbind option_bind].
  change (<["user_id" := _]> _) with (profile_of name2 email2 nt2 int2).
  unfold save_user_profile. rewrite (save_registration _ _ _ _ _ _ Hwf).
  unfold select_by_user_id in *. rewrite Hsame.
  rewrite find_snoc_none by done. cbn [Database.user_id row_of].
  rewrite (proj2 (sql_eq_text _ _) eq_refl).
  unfold sql_update. cbn [not_null andb].
  assert (Huniq : unique_email (TEXT email2)
            (filter (fun r => negb (sql_eq (Database.user_id r)
                                      (TEXT (Api.user_id_of_email email1))))
                    (db ++ [row_of now now name1 email1 nt1 int1])) = true).
  { unfold unique_email. apply forallb_forall.
    intros r [Hno Hin]%list_elem_of_In%list_elem_of_filter.
    apply elem_of_app in Hin as [Hin | ->%list_elem_of_singleton].
    - by rewrite (find_none _ _ Hemail2 r (proj1 (list_elem_of_In _ _) Hin)).
    - cbn in Hno. by rewrite bool_decide_eq_true_2 in Hno. }
  rewrite Huniq. rewrite map_app.
  rewrite (map_unmatched (TEXT (Api.user_id_of_email email1)) _ db Hid).
  cbn [map row_of Database.user_id].
  rewrite (proj2 (sql_eq_text _ _) eq_refl).
  unfold row_of. cbn. by rewrite Hsame.
Qed.

(** X11. The identifier is the part of the address before the [@].
    When a second address with the same part before the [@] is
    registered, the answer is [success] and the row of the first
    registration is rewritten: no row is added, the identifier now
    carries the second address, and the first address is registered no
    more. *)
Theorem same_local_part_overwrites (now now' : str) (db : list row)
    (name1 email1 nt1 int1 name2 email2 nt2 int2 : str) :
  well_formed name1 email1 nt1 int1 ->
  well_formed name2 email2 nt2 int2 ->
  fresh db email1 ->
  select_by_email db (TEXT email2) = None ->
  email2 <> email1 ->
  Api.user_id_of_email email2 = Api.user_id_of_email email1 ->
  exists resp1 db1 resp2 db2,
    Api.create_user_profile true now db name1 email1 nt1 int1
      = (Api.Returns resp1, db1)
    /\ Api.create_user_profile true now' db1 name2 email2 nt2 int2
       = (Api.Returns resp2, db2)
    /\ Api.status resp2 = u "success"
    /\ Api.user_id resp2 = Api.user_id resp1
    /\ length db2 = length db1
    /\ get_user_profile_by_email db2 email1 = None
    /\ get_user_profile db2 (Api.user_id_of_email email1) ≫= (.!! "email")
       = Some (FStr email2)
    /\ get_user_profile db2 (Api.user_id_of_email email1) ≫= (.!! "name")
       = Some (FStr name2).
Proof.
  intros Hwf1 Hwf2 Hfresh Hemail2 Hne Hsame.
  pose proof Hwf1 as (_ & Henc1 & _ & _).
  pose proof Hwf2 as (_ & Henc2 & Hnt2 & Hint2).
  pose proof Hfresh as [Hemail1 Hid].
  eexists _, _, _, _. split; [by apply create_fresh|].
  split; [by apply create_collision|].
  split; [reflexivity|]. split; [by cbn|].
  split; [by rewrite !length_app|].
  split.
  - unfold get_user_profile_by_email. cbn [bind_param]. rewrite Henc1.
    cbn [mbind option_bind]. unfold select_by_email in *.
    rewrite find_snoc_none by done. cbn [Database.email row_of].
    assert (Hdiff : sql_eq (TEXT email2) (TEXT email1) = false).
    { apply not_true_is_false. by intros ->%sql_eq_text. }
    by rewrite Hdiff.
  - rewrite <- Hsame. rewrite lookup_registration_by_id; [|done..|by rewrite Hsame].
    cbn [mbind option_bind].
    by destruct (stored_lookups now now' name2 email2 nt2 int2)
      as (_ & ? & ? & _).
Qed.

Lemma same_local_part_overwrites_witness :
  exists resp1 db1 resp2 db2,
    Api.create_user_profile true Requests.morning [] (u "Alice")
      Requests.alice_mail (u "09:00") (u "tech") = (Api.Returns resp1, db1)
    /\ Api.create_user_profile true Requests.later db1 (u "Another Alice")
         Requests.other_alice_mail (u "18:00") (u "sports")
       = (Api.Returns resp2, db2)
    /\ Api.status resp2 = u "success"
    /\ Api.user_id resp2 = Api.user_id resp1
    /\ length db2 = length db1
    /\ get_user_profile_by_email db2 Requests.alice_mail = None
    /\ get_user_profile db2 (Api.user_id_of_email Requests.alice_mail)
         ≫= (.!! "email") = Some (FStr Requests.other_alice_mail)
    /\ get_user_profile db2 (Api.user_id_of_email Requests.alice_mail)
         ≫= (.!! "name") = Some (FStr (u "Another Alice")).
Proof.
  apply (same_local_part_overwrites Requests.morning Requests.later []
           (u "Alice") Requests.alice_mail (u "09:00") (u "tech")
           (u "Another Alice") Requests.other_alice_mail (u "18:00") (u "sports")).
  - by repeat split.
  - by repeat split.
  - by split.
  - reflexivity.
  - by vm_compute.
  - reflexivity.
Defined.

End ApiProperties.

Section ApiNews.
Import Database Store.

(** X12. An identifier under which nothing was saved is not answered
    with 404: the exception raised for it is caught by the handler
    around it and leaves the endpoint as a 500 that carries it. *)
Theorem unknown_profile_answers_500 (ps : list (str * gmap string field))
    (uid : str) :
  (forall t p, (t, p) ∈ ps -> p !! "user_id" <> Some (FStr uid)) ->
  Api.get_user_profile_endpoint true (saves [] ps) uid
  = Api.Raises 500
      (Api.Prefixed (u "Error retrieving profile: ")
         (Api.HTTPException 404
            (Api.Text (u "Profile not found for user_id: " ++ uid)))).
Proof.
  intros Hps. unfold Api.get_user_profile_endpoint. cbn [negb].
  rewrite get_user_profile_unknown; [done|]. by apply saves_keep_unknown.
Qed.

Lemma unknown_profile_answers_500_witness :
  Api.get_user_profile_endpoint true
    (saves [] [(Sample.noon, Sample.alice)]) (u "bob")
  = Api.Raises 500
      (Api.Prefixed (u "Error retrieving profile: ")
         (Api.HTTPException 404
            (Api.Text (u "Profile not found for user_id: " ++ u "bob")))).
Proof.
  apply (unknown_profile_answers_500 [(Sample.noon, Sample.alice)] (u "bob")).
  intros t p [[= _ ->]|Hin]%elem_of_cons; [by vm_compute|].
  by apply elem_of_nil in Hin.
Defined.


End ApiNews.

Section RetrivProperties.
Import Retriv Variation.

(** X14. What is handed to the accountant by [run] is never empty and
    has no white space at either end; an answer that is white space
    alone goes back to the caller as it came, and nothing is paid. *)
Theorem payment_data_is_stripped (w : world) (context : str)
    (p : option (gmap string pyval)) :
  (forall s profile,
     EvAccountant (PVal (PStr s)) profile ∈ (retriv_run_agent w context p).1 ->
     s <> [] /\ strip s = s)
  /\ (forall agent_response,
     chat_openai w = Ok tt -> get_tools w = Ok tt ->
     ainvoke w (user_input context) = Ok agent_response ->
     strip agent_response = [] ->
     (retriv_run_agent w context p).2 = Ok agent_response
     /\ forall e, e ∈ (retriv_run_agent w context p).1 -> Trace.is_submit e = false).
Proof.
  rewrite retriv_run_agent_eq. split.
  - intros s profile.
    destruct (chat_openai w) as [[]|?], (get_tools w) as [[]|?],
      (ainvoke w (user_input context)) as [resp|?];
      try destruct (truthy (strip resp)) eqn:Htruthy; cbn; intros Hin;
      repeat (apply elem_of_cons in Hin as [Hin|Hin]; [simplify_eq|]);
      try (by apply elem_of_nil in Hin).
    split; [by destruct (strip resp)|apply strip_idemp].
  - intros resp -> -> -> Hblank. rewrite Hblank. cbn. split; [done|].
    intros e He.
    repeat (apply elem_of_cons in He as [->|He]; [done|]).
    by apply elem_of_nil in He.
Qed.

Lemma payment_data_is_stripped_witness :
  (retriv_run_agent Variation.blank_answer (u "Apple") None).2
  = Ok (u "  " ++ [LF]).
Proof.
  apply (proj2 (payment_data_is_stripped Variation.blank_answer (u "Apple") None)
           (u "  " ++ [LF]) eq_refl eq_refl eq_refl eq_refl).
Defined.

(** X15. A failure of the disconnection in [cleanup] never shows: the
    outcome of [retriv_run_agent] is the same whether [disconnect]
    returns or raises. *)
Theorem disconnect_failure_is_silent (w : world) (context : str)
    (p : option (gmap string pyval)) (r : result unit) :
  retriv_run_agent (with_disconnect w r) context p = retriv_run_agent w context p.
Proof. by rewrite !retriv_run_agent_eq. Qed.

(** X16. An agent object asks for the tools once: a run that got them
    leaves the agent built, and a later run of the same object starts
    with the call of the model. Only when the tools could not be
    listed does the next run ask again. *)
Theorem agent_is_built_once (w : world) (context : str)
    (p1 p2 : option (gmap string pyval)) :
  let after_first :=
    (run w context p1 {| mcp_client := false; agent_runnable := false |}).1.2 in
  (EvGetTools ∈ (run w context p2 after_first).1.1 <-> exists e, get_tools w = Raise e)
  /\ mcp_client after_first = true.
Proof.
  cbn zeta. rewrite run_fresh.
  destruct (get_tools w) as [[]|e] eqn:Htools.
  - assert (Hbuilt : EvGetTools ∉
        (run w context p2 {| mcp_client := true; agent_runnable := true |}).1.1).
    { unfold run, bind, get, ret, call, _handle_payment_required. cbn.
      destruct (ainvoke w (user_input context)) as [resp|?]; cbn;
        [destruct (truthy (strip resp)); cbn;
         try destruct (run_accountant_service w _ _); cbn|];
        intros Hin;
        repeat (apply elem_of_cons in Hin as [Hin|Hin]; [done|]);
        by apply elem_of_nil in Hin. }
    assert (Hstate :
      (let s := {| mcp_client := true; agent_runnable := true |} in
       match ainvoke w (user_input context) with
       | Ok agent_response =>
           if truthy (strip agent_response)
           then ([EvGetTools; EvInvoke (user_input context);
                  EvAccountant (PVal (PStr (strip agent_response)))
                    default_profile],
                 s,
                 run_accountant_service w (PVal (PStr (strip agent_response)))
                   default_profile)
           else ([EvGetTools; EvInvoke (user_input context)], s,
                 Ok agent_response)
       | Raise e => ([EvGetTools; EvInvoke (user_input context)], s, Raise e)
       end).1.2 = {| mcp_client := true; agent_runnable := true |}).
    { cbn zeta. destruct (ainvoke w (user_input context)) as [resp|?];
        [by destruct (truthy (strip resp))|done]. }
    rewrite Hstate. split; [|done]. split; [done|by intros [? ?]].
  - cbn [fst snd]. split; [|done]. split; [by eexists|]. intros _.
    unfold run, create_news_agent, setup_mcp_client, bind, get, put, ret, call.
    cbn. rewrite Htools. cbn. apply list_elem_of_here.
Qed.

End RetrivProperties.

Section MainProperties.
Import Main Trace Outcome Lifecycle.

Ltac split_goal :=
  match goal with
  | |- context [match ?x with _ => _ end] =>
      lazymatch x with
      | context [match _ with _ => _ end] => fail
      | _ => destruct x eqn:?
      end
  end.

Ltac run_main :=
  unfold test_accountant_agent, body, except_connection_error,
    redeem_and_report, requests_get, sleep,
    try_finally, bind, call, call_pure, ret in *;
  cbn;
  repeat (split_goal; cbn; try done).

Ltac in_trace H :=
  repeat (apply elem_of_cons in H as [H|H]; [simplify_eq/=|]);
  try (by apply elem_of_nil in H).

(** X17. The payment server is stopped when, and only when, the call
    started it: on every path through [test_accountant_agent], also
    those that end in an exception, the process is terminated once and
    as the last thing done. A server that was found running is left
    running. *)
Theorem started_server_is_stopped (w : world) (b : bool) :
  ensure_mcp_server_running w "tool_pay.py" = Ok b ->
  filter is_terminate (test_accountant_agent w).1
  = (if b then [EvTerminate] else [])
  /\ (b = true -> last (test_accountant_agent w).1 = Some EvTerminate).
Proof.
  intros Hmcp.
  unfold test_accountant_agent, body, except_connection_error,
    redeem_and_report, requests_get, sleep,
    try_finally, bind, call, call_pure, ret.
  rewrite Hmcp. cbn.
  repeat (split_goal; cbn; try done).
Qed.

Lemma started_server_is_stopped_witness :
  last (test_accountant_agent Scenario.failed_settlement).1 = Some EvTerminate.
Proof.
  apply (proj2 (started_server_is_stopped Scenario.failed_settlement true
                  eq_refl) eq_refl).
Defined.

(** X18. Nothing is paid without a 402: in any run of
    [test_accountant_agent] an accountant call is made with the VIP
    profile, and its payment data is the decoded body of a first
    answer of the content server whose status is 402. *)
Theorem payment_only_after_402 (w : world) (payment : pyobj)
    (profile : gmap string pyval) :
  EvAccountant payment profile ∈ (test_accountant_agent w).1 ->
  profile = vip_profile
  /\ exists h1 srv resp,
       content_server w = h1 :: srv
       /\ h1 server_url [] = Ok resp
       /\ status_code resp = 402%Z
       /\ json resp = Ok payment.
Proof.
  unfold test_accountant_agent, body, except_connection_error,
    redeem_and_report, requests_get, sleep,
    try_finally, bind, call, call_pure, ret.
  cbn.
  destruct (ensure_mcp_server_running w "tool_pay.py") as [b|e]; cbn;
    [|intros Hin; in_trace Hin].
  destruct (content_server w) as [|h1 srv]; cbn;
    [destruct b; cbn; intros Hin; in_trace Hin|].
  destruct (h1 server_url []) as [resp|e] eqn:Hh1; cbn;
    [|destruct e, b; cbn; intros Hin; in_trace Hin].
  destruct (status_code resp =? 402)%Z eqn:H402; cbn;
    [|destruct (status_code resp =? 200)%Z, b; cbn; intros Hin; in_trace Hin].
  apply Z.eqb_eq in H402.
  destruct (json resp) as [bill|e] eqn:Hjson; cbn;
    [|destruct b; cbn; intros Hin; in_trace Hin].
  assert (Hgoal : EvAccountant payment profile = EvAccountant bill vip_profile ->
    profile = vip_profile /\ exists h1' srv' resp',
      h1 :: srv = h1' :: srv' /\ h1' server_url [] = Ok resp'
      /\ status_code resp' = 402%Z /\ json resp' = Ok payment).
  { intros [= -> ->]. split; [done|]. by exists h1, srv, resp. }
  repeat (split_goal; cbn; try done); intros Hin;
    repeat (apply elem_of_cons in Hin as [Hin|Hin];
            [first [by apply Hgoal | discriminate]|]);
    by apply elem_of_nil in Hin.
Qed.

Lemma payment_only_after_402_witness :
  exists h1 srv resp,
    content_server Scenario.empty_challenge = h1 :: srv
    /\ h1 server_url [] = Ok resp
    /\ status_code resp = 402%Z
    /\ json resp = Ok (PDict ∅).
Proof.
  apply (payment_only_after_402 Scenario.empty_challenge (PDict ∅) vip_profile).
  vm_compute. apply list_elem_of_further, list_elem_of_further,
    list_elem_of_here.
Defined.

(** X19. Every request of [test_accountant_agent] goes to the one
    content URL. It carries either no header at all or the single
    header [Authorization: Bearer <hash>], where the hash is not empty
    and made of letters and digits only, whatever the accountant
    answered. *)
Theorem bearer_hash_is_alphanumeric (w : world) (url : str)
    (headers : list (string * str)) :
  EvGet url headers ∈ (test_accountant_agent w).1 ->
  url = server_url
  /\ (headers = []
      \/ exists tx, headers = [("Authorization"%string, u "Bearer " ++ tx)]
           /\ tx <> [] /\ forallb alnum tx = true).
Proof.
  assert (Hred : forall agent_res g,
    re_search agent_res = Some g ->
    EvGet url headers
      = EvGet server_url [("Authorization"%string, u "Bearer " ++ strip g)] ->
    url = server_url
    /\ (headers = []
        \/ exists tx, headers = [("Authorization"%string, u "Bearer " ++ tx)]
             /\ tx <> [] /\ forallb alnum tx = true)).
  { intros agent_res g [Hal Hne]%re_search_alnum [= -> ->].
    split; [done|]. right. exists g. by rewrite (strip_alnum _ Hal). }
  run_main; intros Hin;
    repeat (apply elem_of_cons in Hin as [Hin|Hin];
            [first [ discriminate
                   | by injection Hin as -> ->; split; [|left]
                   | by eapply Hred ]|]);
    by apply elem_of_nil in Hin.
Qed.

Lemma bearer_hash_is_alphanumeric_witness :
  server_url = server_url
  /\ ([("Authorization"%string, u "Bearer " ++ u "5Kx9abc")] = []
      \/ exists tx, [("Authorization"%string, u "Bearer " ++ u "5Kx9abc")]
                    = [("Authorization"%string, u "Bearer " ++ tx)]
           /\ tx <> [] /\ forallb alnum tx = true).
Proof.
  apply (bearer_hash_is_alphanumeric Scenario.calm).
  vm_compute. do 4 apply list_elem_of_further. apply list_elem_of_here.
Defined.

(** X20. A content server that cannot be reached is handled at the
    first request only. Unreachable from the start, the run reports
    the failed connection and returns; gone after its 402 answer, once
    the accountant has paid, the [ConnectionError] of the redeeming
    request leaves the function, after the payment. *)
Theorem connection_error_is_caught_once (w : world) (b : bool) :
  ensure_mcp_server_running w "tool_pay.py" = Ok b ->
  (content_server w = [] ->
     (test_accountant_agent w).2 = Ok ConnectionFailed)
  /\ (forall h1 resp bill agent_res tx,
        content_server w = [h1] ->
        h1 server_url [] = Ok resp ->
        status_code resp = 402%Z ->
        json resp = Ok bill ->
        run_accountant_service w bill vip_profile = Ok agent_res ->
        reported_hash (Ok agent_res) = Some tx ->
        (test_accountant_agent w).2 = Raise ConnectionError
        /\ EvAccountant bill vip_profile ∈ (test_accountant_agent w).1).
Proof.
  intros Hmcp.
  unfold test_accountant_agent, body, except_connection_error,
    redeem_and_report, requests_get, sleep,
    try_finally, bind, call, call_pure, ret.
  rewrite Hmcp. cbn. split.
  - intros ->. by destruct b.
  - intros h1 resp bill agent_res tx -> Hh1 H402 Hjson Hacc Hhash.
    cbn in Hhash. destruct (contains _ _) eqn:Hc; [|done].
    rewrite Hh1, H402, Hjson, Hacc, Hc, Hhash. cbn.
    destruct b; cbn; (split; [done|]);
      apply list_elem_of_further, list_elem_of_further, list_elem_of_here.
Qed.

Lemma connection_error_is_caught_once_witness :
  (test_accountant_agent Lifecycle.server_lost).2 = Raise ConnectionError.
Proof.
  apply (proj2 (connection_error_is_caught_once Lifecycle.server_lost true
                  eq_refl)
           (Scenario.payment_required Scenario.challenge)
           {| status_code := 402; text := u "payment required";
              json := Ok (PDict Scenario.challenge) |}
           (PDict Scenario.challenge) (u "PAYMENT_SUCCESSFUL: 5Kx9abc")
           (u "5Kx9abc")); reflexivity.
Defined.

End MainProperties.

Section NewsTestProperties.
Import MainNews Lifecycle.

Lemma default_context_stripped : strip default_context = default_context.
Proof. by vm_compute. Qed.

(** X21. The clean-up of [test_news_agent] looks at the search server
    alone. When the call started the search server and found the
    payment server running, the clean-up raises [AttributeError] after
    stopping the first: the response of the agent, or its exception,
    is lost. When the call started the payment server alone, nothing
    is stopped. *)
Theorem news_test_cleanup (w : world) (typed : result str) :
  (ensure_mcp_server_running w "retrival_tools.py" = Ok true ->
   ensure_mcp_server_running w "tool_pay.py" = Ok false ->
   (test_news_agent w typed).2 = Raise AttributeError
   /\ filter is_terminate (test_news_agent w typed).1 = [EvTerminate])
  /\ (forall b,
   ensure_mcp_server_running w "retrival_tools.py" = Ok false ->
   ensure_mcp_server_running w "tool_pay.py" = Ok b ->
   filter is_terminate (test_news_agent w typed).1 = []).
Proof.
  assert (Hagent : forall context,
    filter is_terminate (Retriv.retriv_run_agent w context None).1 = []).
  { intros context. rewrite retriv_run_agent_eq. by repeat case_match. }
  unfold test_news_agent, body, stop_servers, try_finally, bind, call,
    call_pure, ret, raise.
  split.
  - intros -> ->. cbn [fst snd]. destruct typed as [line|e]; [|done].
    destruct (Retriv.retriv_run_agent w _ None) as [t r] eqn:Hrun.
    cbn [fst snd]. split; [done|].
    specialize (Hagent (if truthy (strip line) then strip line
                        else default_context)).
    rewrite Hrun in Hagent. cbn [fst] in Hagent.
    change (filter is_terminate
              ([EvStartMCP "retrival_tools.py"] ++ [EvStartMCP "tool_pay.py"]
               ++ ([] ++ t) ++ [EvTerminate] ++ []) = [EvTerminate]).
    by rewrite !filter_app, Hagent.
  - intros b -> ->. cbn [fst snd]. destruct typed as [line|e]; [|done].
    destruct (Retriv.retriv_run_agent w _ None) as [t r] eqn:Hrun.
    cbn [fst snd].
    specialize (Hagent (if truthy (strip line) then strip line
                        else default_context)).
    rewrite Hrun in Hagent. cbn [fst] in Hagent.
    change (filter is_terminate
              ([EvStartMCP "retrival_tools.py"] ++ [EvStartMCP "tool_pay.py"]
               ++ ([] ++ t) ++ []) = []).
    by rewrite !filter_app, Hagent.
Qed.

Lemma news_test_cleanup_witness :
  (test_news_agent (with_servers Scenario.calm search_only) (Ok (u "Tesla"))).2
  = Raise AttributeError.
Proof.
  apply (proj1 (news_test_cleanup (with_servers Scenario.calm search_only)
                  (Ok (u "Tesla")))); reflexivity.
Defined.

(** X22. The line typed in [test_news_agent] counts up to the white
    space around it, and a line of white space alone is the default
    context. *)
Theorem typed_context_is_stripped (w : world) (line : str) :
  test_news_agent w (Ok line) = test_news_agent w (Ok (strip line))
  /\ (strip line = [] ->
      test_news_agent w (Ok line) = test_news_agent w (Ok default_context)).
Proof.
  unfold test_news_agent, body, try_finally, bind, call, call_pure, ret.
  cbn. split.
  - by rewrite strip_idemp.
  - intros ->. by rewrite default_context_stripped.
Qed.

Lemma typed_context_is_stripped_witness :
  test_news_agent Scenario.calm (Ok (u "   "))
  = test_news_agent Scenario.calm (Ok default_context).
Proof.
  apply (proj2 (typed_context_is_stripped Scenario.calm (u "   "))).
  reflexivity.
Defined.

End NewsTestProperties.
